(** * Snowflake schema column detector

    A shallow embedding of [SnowflakeOparations/column_detector.py]: the
    class [SnowflakeColumnDetector] and the [main] function.

    The script talks to three things outside itself: the Snowflake driver
    ([snowflake.connector]), pandas, and the file system.  The warehouse is
    a record [Warehouse] (what a login answers, what the information schema
    holds, which statements fail, which rows a sample statement returns);
    pandas' two renderers are a record [Pandas]; the file system is a finite
    map from path to content.  Every method of the class is a computation in
    a state-and-exception monad [M] over [State], which holds the only
    mutable attribute of the object ([self.connection]) and the world the
    script can change (sessions, files, and the trace of what it did). *)

From stdpp Require Import gmap strings list sorting pretty.

(** ** Python built-ins used by the script *)

Module Py.

(** A value fetched from a result set.  [VObj] stands for any object
    other than an integer, a string or a boolean (a [Decimal], a
    [datetime], ...), carried with the text that [str] gives for it. *)
Inductive value :=
| VInt (z : Z)
| VStr (s : string)
| VBool (b : bool)
| VObj (shown : string).

(** [str(v)] *)
Definition str (v : value) : string :=
  match v with
  | VInt z => pretty z
  | VStr s => s
  | VBool true => "True"
  | VBool false => "False"
  | VObj shown => shown
  end.

(** [sep.join(l)] *)
Fixpoint join (sep : string) (l : list string) : string :=
  match l with
  | [] => EmptyString
  | s :: rest =>
      match rest with
      | [] => s
      | _ :: _ => s +:+ sep +:+ join sep rest
      end
  end.

(** [l[:n]]: the first [n] elements, and for a negative [n] all but the
    last [-n]. *)
Definition slice_to {A} (n : Z) (l : list A) : list A :=
  if decide (0 ≤ n)%Z then take (Z.to_nat n) l
  else take (Z.to_nat (Z.of_nat (length l) + n)) l.

(** [s * n] on strings *)
Fixpoint repeat_str (s : string) (n : nat) : string :=
  match n with
  | O => EmptyString
  | S k => s +:+ repeat_str s k
  end.

(** The line feed, written [\n] in the script. *)
Definition nl : string := String (Ascii.ascii_of_nat 10) EmptyString.

End Py.

(** ** Exceptions *)

Inductive exn_class := ConnectionError | QueryError | AttributeError.

(** An exception: its class and the text [str(e)] gives. *)
Record exn := Exn { exn_kind : exn_class; exn_str : string }.

(** ** Data model *)

(** One row of the frame built by [get_columns_info]: the seven selected
    columns of [INFORMATION_SCHEMA.COLUMNS]. *)
Record ColumnDescriptor := {
  COLUMN_NAME : string;
  DATA_TYPE : string;
  IS_NULLABLE : string;
  COLUMN_DEFAULT : option string;
  CHAR_MAX_LENGTH : option Z;
  NUMERIC_PRECISION : option Z;
  NUMERIC_SCALE : option Z
}.

(** A column as the catalog holds it: its position in the table and what
    the metadata statement selects of it. *)
Record CatalogColumn := {
  ORDINAL_POSITION : Z;
  descriptor : ColumnDescriptor
}.

(** An object of the catalog (a base table, a view, ...) with its columns.
    [INFORMATION_SCHEMA.TABLES] has one row per object and
    [INFORMATION_SCHEMA.COLUMNS] one row per column of each object. *)
Record CatalogTable := {
  TABLE_SCHEMA : string;
  TABLE_NAME : string;
  TABLE_TYPE : string;
  table_columns : list CatalogColumn
}.

(** One dictionary appended to [results] in [analyze_schema]; the fields
    stand for the keys listed in [row_keys], in that order. *)
Record AnalysisRow := {
  row_table : string;
  row_column : string;
  row_type : string;
  row_nullable : string;
  row_samples : string
}.

Definition row_keys : list string :=
  ["テーブル名"; "カラム名"; "データ型"; "NULL許可"; "サンプル値"].

(** The frame [pd.DataFrame(results)]. *)
Abbreviation DataFrame := (list AnalysisRow).

(** The arguments of [__init__]. *)
Record Config := {
  account : string;
  user : string;
  password : string;
  warehouse : string;
  database : string;
  schema : string
}.

(** ** The statements the script sends

    Each constructor stands for one of the three f-string templates, with
    the values substituted into it.

    - [SelectTables db sch]:
      [SELECT TABLE_NAME FROM db.INFORMATION_SCHEMA.TABLES
       WHERE TABLE_SCHEMA = 'sch' AND TABLE_TYPE = 'BASE TABLE'
       ORDER BY TABLE_NAME]
    - [SelectColumns db sch tbl]:
      [SELECT COLUMN_NAME, DATA_TYPE, IS_NULLABLE, COLUMN_DEFAULT,
       CHARACTER_MAXIMUM_LENGTH, NUMERIC_PRECISION, NUMERIC_SCALE
       FROM db.INFORMATION_SCHEMA.COLUMNS
       WHERE TABLE_SCHEMA = 'sch' AND TABLE_NAME = 'tbl'
       ORDER BY ORDINAL_POSITION]
    - [SelectSample db sch tbl col n]:
      [SELECT DISTINCT "col" FROM db.sch."tbl"
       WHERE "col" IS NOT NULL LIMIT n] *)
Inductive Query :=
| SelectTables (db sch : string)
| SelectColumns (db sch tbl : string)
| SelectSample (db sch tbl col : string) (limit : Z).

(** ** The external collaborators *)

(** The warehouse behind the driver.
    - [wh_login cfg] is [Some msg] when [snowflake.connector.connect]
      raises, with the text of the exception;
    - [wh_catalog db] is the content of the information schema of [db];
    - [wh_fault q] is [Some msg] when [cursor.execute] raises on [q]
      (statement rejected, permission denied, network failure, ...);
    - [wh_rows db sch tbl col n] is what [fetchall] gives, first column of
      each row, after a sample statement that did not fail. *)
Record Warehouse := {
  wh_login : Config → option string;
  wh_catalog : string → list CatalogTable;
  wh_fault : Query → option string;
  wh_rows : string → string → string → string → Z → list Py.value
}.

(** The two pandas renderers the script calls on the result frame:
    [df.to_string()] and the text [df.to_csv(..., index=False)] produces,
    before it is encoded. *)
Record Pandas := {
  to_string : DataFrame → string;
  to_csv : DataFrame → string
}.

(** The prefix the [utf-8-sig] codec puts in front of the encoded text:
    the byte-order mark EF BB BF. *)
Definition BOM : string :=
  String (Ascii.ascii_of_nat 239)
    (String (Ascii.ascii_of_nat 187)
       (String (Ascii.ascii_of_nat 191) EmptyString)).

(** ** What the catalog statements answer *)

Definition by_name (a b : CatalogTable) : Prop :=
  String.le (TABLE_NAME a) (TABLE_NAME b).

Definition by_position (a b : CatalogColumn) : Prop :=
  (ORDINAL_POSITION a ≤ ORDINAL_POSITION b)%Z.

#[global] Instance by_name_dec : RelDecision by_name.
Proof. intros a b. unfold by_name. apply _. Defined.

#[global] Instance by_position_dec : RelDecision by_position.
Proof. intros a b. unfold by_position. apply _. Defined.

(** [WHERE TABLE_SCHEMA = 'sch' AND TABLE_TYPE = 'BASE TABLE'] *)
Definition is_base_table_of (sch : string) (o : CatalogTable) : Prop :=
  TABLE_SCHEMA o = sch ∧ TABLE_TYPE o = "BASE TABLE".

(** [WHERE TABLE_SCHEMA = 'sch' AND TABLE_NAME = 'tbl'] *)
Definition is_object (sch tbl : string) (o : CatalogTable) : Prop :=
  TABLE_SCHEMA o = sch ∧ TABLE_NAME o = tbl.

#[global] Instance is_base_table_of_dec sch o : Decision (is_base_table_of sch o).
Proof. unfold is_base_table_of. apply _. Defined.

#[global] Instance is_object_dec sch tbl o : Decision (is_object sch tbl o).
Proof. unfold is_object. apply _. Defined.

(** The rows of [INFORMATION_SCHEMA.COLUMNS] that belong to [tbl] in
    [sch], before they are ordered. *)
Definition catalog_columns (cat : list CatalogTable) (sch tbl : string)
  : list CatalogColumn :=
  mbind table_columns (filter (is_object sch tbl) cat).

(** The answer to [SelectTables db sch]. *)
Definition select_tables (wh : Warehouse) (db sch : string) : list string :=
  TABLE_NAME <$> merge_sort by_name (filter (is_base_table_of sch) (wh_catalog wh db)).

(** The answer to [SelectColumns db sch tbl]. *)
Definition select_columns (wh : Warehouse) (db sch tbl : string)
  : list ColumnDescriptor :=
  descriptor <$> merge_sort by_position (catalog_columns (wh_catalog wh db) sch tbl).

(** ** State, trace and the monad *)

Inductive event :=
| EvLogin (accepted : bool)
| EvClose (sid : nat)
| EvExecute (sid : nat) (q : Query)
| EvPrint (line : string)
| EvWrite (path : string).

(** - [connection]: [self.connection], [None] or the session it refers to;
    - [sessions]: for every session opened so far, whether it is still open;
    - [files]: the file system;
    - [trace]: what the script did, oldest first. *)
Record State := {
  connection : option nat;
  sessions : list bool;
  files : gmap string string;
  trace : list event
}.

Inductive outcome (A : Type) :=
| Ret (a : A)
| Raise (e : exn).
Arguments Ret {A} a.
Arguments Raise {A} e.

Definition M (A : Type) : Type := State → outcome A * State.

Definition ret {A} (a : A) : M A := λ st, (Ret a, st).

Definition raise {A} (e : exn) : M A := λ st, (Raise e, st).

Definition bind {A B} (m : M A) (k : A → M B) : M B :=
  λ st, match m st with
        | (Ret a, st') => k a st'
        | (Raise e, st') => (Raise e, st')
        end.

(** [try: m except Exception as e: h e] *)
Definition try_except {A} (m : M A) (h : exn → M A) : M A :=
  λ st, match m st with
        | (Ret a, st') => (Ret a, st')
        | (Raise e, st') => h e st'
        end.

(** [try: m finally: fin] *)
Definition try_finally {A} (m : M A) (fin : M unit) : M A :=
  λ st, match m st with
        | (r, st') =>
            match fin st' with
            | (Ret _, st'') => (r, st'')
            | (Raise e, st'') => (Raise e, st'')
            end
        end.

Declare Scope py_scope.
Delimit Scope py_scope with py.
Notation "'let*' x := m 'in' k" := (bind m (λ x, k))
  (at level 10, x name, m at level 100, k at level 200) : py_scope.
Notation "m >> k" := (bind m (λ _, k))
  (at level 100, k at level 200, right associativity) : py_scope.
Open Scope py_scope.

(** [for x in l: s = body x s] *)
Fixpoint for_each {A S} (l : list A) (body : A → S → M S) (s : S) : M S :=
  match l with
  | [] => ret s
  | x :: rest => let* s' := body x s in for_each rest body s'
  end.

Definition emit (e : event) : M unit :=
  λ st, (Ret tt, {| connection := connection st; sessions := sessions st;
                    files := files st; trace := trace st ++ [e] |}).

Definition print (line : string) : M unit := emit (EvPrint line).

Definition get_connection : M (option nat) := λ st, (Ret (connection st), st).

Definition set_connection (c : option nat) : M unit :=
  λ st, (Ret tt, {| connection := c; sessions := sessions st;
                    files := files st; trace := trace st |}).

Definition write_file (path content : string) : M unit :=
  λ st, (Ret tt, {| connection := connection st; sessions := sessions st;
                    files := <[path := content]> (files st);
                    trace := trace st ++ [EvWrite path] |}).

(** ** The driver and the detector *)

Section Detector.

Context (wh : Warehouse) (pd : Pandas).

(** [self]: the attributes set by [__init__] other than [connection]. *)
Context (self : Config).

(** [snowflake.connector.connect(...)]: a new open session, or the
    driver's exception. *)
Definition driver_connect : M nat :=
  match wh_login wh self with
  | Some msg => emit (EvLogin false) >> raise (Exn ConnectionError msg)
  | None =>
      emit (EvLogin true) >>
      λ st, (Ret (length (sessions st)),
             {| connection := connection st; sessions := sessions st ++ [true];
                files := files st; trace := trace st |})
  end.

(** [connection.close()]: the session is closed from then on; closing a
    closed session changes nothing. *)
Definition driver_close (sid : nat) : M unit :=
  emit (EvClose sid) >>
  λ st, (Ret tt,
         {| connection := connection st; sessions := <[sid := false]> (sessions st);
            files := files st; trace := trace st |}).

(** [self.connection.cursor()]: fails on [None], which has no such
    attribute, and on a closed session. *)
Definition cursor : M nat :=
  let* c := get_connection in
  match c with
  | None => raise (Exn AttributeError "'NoneType' object has no attribute 'cursor'")
  | Some sid =>
      λ st, match sessions st !! sid with
            | Some true => (Ret sid, st)
            | _ => (Raise (Exn QueryError "Connection is closed"), st)
            end
  end.

(** [cursor.execute(query)] *)
Definition execute (sid : nat) (q : Query) : M unit :=
  emit (EvExecute sid q) >>
  match wh_fault wh q with
  | Some msg => raise (Exn QueryError msg)
  | None => ret tt
  end.

(** ** The methods of [SnowflakeColumnDetector]

    Closing a cursor has no effect on the session and is left out. *)

Definition connect : M unit :=
  try_except
    (let* sid := driver_connect in
     set_connection (Some sid) >>
     print ("✓ Snowflakeに接続しました: " +:+ database self +:+ "." +:+ schema self))
    (λ e, print ("✗ 接続エラー: " +:+ exn_str e) >> raise e).

Definition disconnect : M unit :=
  let* c := get_connection in
  match c with
  | Some sid => driver_close sid >> print "✓ Snowflakeから切断しました"
  | None => ret tt
  end.

Definition get_tables : M (list string) :=
  let query := SelectTables (database self) (schema self) in
  let* cur := cursor in
  execute cur query >>
  let tables := select_tables wh (database self) (schema self) in
  ret tables.

Definition get_columns_info (table_name : string) : M (list ColumnDescriptor) :=
  let query := SelectColumns (database self) (schema self) table_name in
  let* cur := cursor in
  execute cur query >>
  let columns := select_columns wh (database self) (schema self) table_name in
  ret columns.

Definition get_sample_values (table_name column_name : string) (sample_size : Z)
  : M (list Py.value) :=
  let query := SelectSample (database self) (schema self) table_name column_name sample_size in
  try_except
    (let* cur := cursor in
     execute cur query >>
     let samples := wh_rows wh (database self) (schema self) table_name column_name sample_size in
     ret samples)
    (λ e, ret [Py.VStr ("エラー: " +:+ exn_str e)]).

(** The body of the inner loop of [analyze_schema]: one column of
    [table]. *)
Definition analyze_column (sample_size : Z) (table : string)
    (col_info : ColumnDescriptor) (results : list AnalysisRow)
  : M (list AnalysisRow) :=
  let column_name := COLUMN_NAME col_info in
  let data_type := DATA_TYPE col_info in
  let is_nullable := IS_NULLABLE col_info in
  let* samples := get_sample_values table column_name sample_size in
  let sample_str := Py.join ", " (Py.str <$> Py.slice_to sample_size samples) in
  let results := results ++ [ {| row_table := table; row_column := column_name;
                                row_type := data_type; row_nullable := is_nullable;
                                row_samples := sample_str |} ] in
  print ("  - " +:+ column_name +:+ " (" +:+ data_type +:+ ")") >>
  ret results.

(** The body of the outer loop: one table. *)
Definition analyze_table (sample_size : Z) (table : string)
    (results : list AnalysisRow) : M (list AnalysisRow) :=
  print (Py.nl +:+ "処理中: " +:+ table) >>
  let* columns_info := get_columns_info table in
  for_each columns_info (analyze_column sample_size table) results.

(** [if specific_tables:] holds for a list that is given and not empty. *)
Definition truthy {A} (l : option (list A)) : bool :=
  match l with
  | Some (_ :: _) => true
  | _ => false
  end.

Definition analyze_schema (sample_size : Z) (specific_tables : option (list string))
  : M DataFrame :=
  let* c := get_connection in
  (if c is None then connect else ret tt) >>
  let* tables :=
    (if truthy specific_tables then ret (default [] specific_tables) else get_tables) in
  print (Py.nl +:+ "分析対象テーブル数: " +:+ pretty (length tables)) >>
  let* results := for_each tables (analyze_table sample_size) [] in
  ret results.

Definition export_to_csv (df : DataFrame) (output_file : string) : M unit :=
  write_file output_file (BOM +:+ to_csv pd df) >>
  print (Py.nl +:+ "✓ 結果を '" +:+ output_file +:+ "' に出力しました").

(** ** [main]

    [run] is the body of [main] with the two arguments of its call of
    [analyze_schema] left open; [main] itself passes a sample size of 5
    and no table list. *)
Definition run_body (sample_size : Z) (specific_tables : option (list string))
  : M unit :=
  connect >>
  let* results := analyze_schema sample_size specific_tables in
  print (Py.nl +:+ Py.repeat_str "=" 80) >>
  print "分析結果" >>
  print (Py.repeat_str "=" 80) >>
  print (to_string pd results) >>
  export_to_csv results "snowflake_schema_analysis.csv".

Definition run (sample_size : Z) (specific_tables : option (list string)) : M unit :=
  try_finally
    (try_except (run_body sample_size specific_tables)
       (λ e, print (Py.nl +:+ "エラーが発生しました: " +:+ exn_str e)))
    disconnect.

Definition main : M unit := run 5 None.

End Detector.

(** The state in which [main] starts: the detector has just been built, so
    [self.connection] is [None]; no session exists yet. *)
Definition initial (fs : gmap string string) : State :=
  {| connection := None; sessions := []; files := fs; trace := [] |}.

(** ** What the analysis computes

    The report as a function of the warehouse: what [analyze_schema]
    returns when it returns, written without the state. *)

Section Summary.

Context (wh : Warehouse) (self : Config).

(** What [get_sample_values] returns on an open session: the fetched
    values, or the one-element list holding the text of the failure. *)
Definition sample_values (table column : string) (sample_size : Z) : list Py.value :=
  match wh_fault wh (SelectSample (database self) (schema self) table column sample_size) with
  | Some msg => [Py.VStr ("エラー: " +:+ msg)]
  | None => wh_rows wh (database self) (schema self) table column sample_size
  end.

(** [', '.join([str(s) for s in samples[:sample_size]])] *)
Definition sample_text (sample_size : Z) (samples : list Py.value) : string :=
  Py.join ", " (Py.str <$> Py.slice_to sample_size samples).

(** The dictionary appended for one column. *)
Definition report_row (sample_size : Z) (table : string) (c : ColumnDescriptor)
  : AnalysisRow :=
  {| row_table := table; row_column := COLUMN_NAME c;
     row_type := DATA_TYPE c; row_nullable := IS_NULLABLE c;
     row_samples := sample_text sample_size
                      (sample_values table (COLUMN_NAME c) sample_size) |}.

(** The rows of one table, one per column the metadata statement
    returns, in the order it returns them. *)
Definition table_report (sample_size : Z) (table : string) : list AnalysisRow :=
  report_row sample_size table <$> select_columns wh (database self) (schema self) table.

(** The rows of a list of tables, table after table. *)
Definition report (sample_size : Z) (tables : list string) : DataFrame :=
  tables ≫= table_report sample_size.

(** The tables [analyze_schema] goes through. *)
Definition table_set (specific_tables : option (list string)) : list string :=
  if truthy specific_tables then default [] specific_tables
  else select_tables wh (database self) (schema self).

(** The message of the first metadata statement that fails, if one does. *)
Fixpoint columns_fault (tables : list string) : option string :=
  match tables with
  | [] => None
  | t :: rest =>
      match wh_fault wh (SelectColumns (database self) (schema self) t) with
      | Some msg => Some msg
      | None => columns_fault rest
      end
  end.

(** What the loop over the tables ends with on an open session. *)
Definition tables_outcome (sample_size : Z) (tables : list string) : outcome DataFrame :=
  match columns_fault tables with
  | Some msg => Raise (Exn QueryError msg)
  | None => Ret (report sample_size tables)
  end.

(** What [analyze_schema] ends with on an open session. *)
Definition analysis_outcome (sample_size : Z) (specific_tables : option (list string))
  : outcome DataFrame :=
  if truthy specific_tables then tables_outcome sample_size (default [] specific_tables)
  else
    match wh_fault wh (SelectTables (database self) (schema self)) with
    | Some msg => Raise (Exn QueryError msg)
    | None => tables_outcome sample_size (select_tables wh (database self) (schema self))
    end.

(** What the [try] block of [main] ends with: the frame it exports, or
    the exception that ends it. *)
Definition run_outcome (sample_size : Z) (specific_tables : option (list string))
  : outcome DataFrame :=
  match wh_login wh self with
  | Some msg => Raise (Exn ConnectionError msg)
  | None => analysis_outcome sample_size specific_tables
  end.

(** A table exists when the catalog holds an object of that name in the
    schema. *)
Definition table_exists (table : string) : Prop :=
  Exists (is_object (schema self) table) (wh_catalog wh (database self)).

(** The schema is empty when the catalog holds no object in it. *)
Definition schema_empty : Prop :=
  Forall (λ o, TABLE_SCHEMA o ≠ schema self) (wh_catalog wh (database self)).

End Summary.

(** The statement is one of the two catalog statements. *)
Definition is_catalog (q : Query) : bool :=
  match q with
  | SelectSample _ _ _ _ _ => false
  | _ => true
  end.

(** No catalog statement fails. *)
Definition catalog_sound (wh : Warehouse) : Prop :=
  ∀ q, is_catalog q = true → wh_fault wh q = None.

(** The file [main] exports to. *)
Definition csv_path : string := "snowflake_schema_analysis.csv".

(** The line the [except] clause of [main] prints for exception [e]. *)
Definition error_line (e : exn) : string :=
  Py.nl +:+ "エラーが発生しました: " +:+ exn_str e.

#[global] Instance table_exists_dec wh self t : Decision (table_exists wh self t).
Proof. unfold table_exists. apply _. Defined.

(** The pair that identifies a row of the report. *)
Definition row_key (r : AnalysisRow) : string * string := (row_table r, row_column r).

(** ** What a run leaves unchanged *)

(** [only_trace st st']: from [st] to [st'] nothing changed but the trace,
    which grew at its end. *)
Definition only_trace (st st' : State) : Prop :=
  connection st' = connection st ∧ sessions st' = sessions st ∧
  files st' = files st ∧ ∃ evs, trace st' = trace st ++ evs.

(** A computation is quiet when it changes nothing but the trace. *)
Definition Quiet {A} (m : M A) : Prop := ∀ st, only_trace st (m st).2.

(** [live sid st]: [self.connection] is session [sid], and it is open. *)
Definition live (sid : nat) (st : State) : Prop :=
  connection st = Some sid ∧ sessions st !! sid = Some true.

(** [Yields sid m o]: on every state where [sid] is the open session of
    the detector, [m] ends with [o] and changes nothing but the trace. *)
Definition Yields {A} (sid : nat) (m : M A) (o : outcome A) : Prop :=
  ∀ st, live sid st → (m st).1 = o ∧ only_trace st (m st).2.

#[global] Instance live_dec sid st : Decision (live sid st).
Proof. unfold live. apply _. Defined.

(** [Emits P m]: whatever the state, [m] adds events to the end of the
    trace, and every event it adds satisfies [P]. *)
Definition Emits {A} (P : event → Prop) (m : M A) : Prop :=
  ∀ st, ∃ evs, trace (m st).2 = trace st ++ evs ∧ Forall P evs.

(** The event is the execution of the statement that lists the tables. *)
Definition lists_tables (e : event) : bool :=
  match e with
  | EvExecute _ (SelectTables _ _) => true
  | _ => false
  end.

(** The event is the execution of a statement. *)
Definition is_execute (e : event) : bool :=
  match e with
  | EvExecute _ _ => true
  | _ => false
  end.

(** No session is open. *)
Definition all_closed (st : State) : Prop := Forall (λ b, b = false) (sessions st).

Create HintDb quiet discriminated.

(** ** A concrete warehouse

    A small warehouse and a plain pandas, to run the script on.  The
    catalog of database [DB] holds, in schema [PUBLIC], the base tables
    [USERS] and [ORDERS] and the view [ACTIVE_USERS], and in schema
    [STAGING] the base table [AUDIT].  Objects and columns are stored in
    no particular order. *)

Module Demo.

Definition column (pos : Z) (name type nullable : string) : CatalogColumn :=
  {| ORDINAL_POSITION := pos;
     descriptor := {| COLUMN_NAME := name; DATA_TYPE := type;
                      IS_NULLABLE := nullable; COLUMN_DEFAULT := None;
                      CHAR_MAX_LENGTH := None; NUMERIC_PRECISION := None;
                      NUMERIC_SCALE := None |} |}.

Definition catalog : list CatalogTable :=
  [ {| TABLE_SCHEMA := "PUBLIC"; TABLE_NAME := "USERS"; TABLE_TYPE := "BASE TABLE";
       table_columns := [ column 2 "EMAIL" "VARCHAR" "YES";
                          column 1 "ID" "NUMBER" "NO" ] |};
    {| TABLE_SCHEMA := "STAGING"; TABLE_NAME := "AUDIT"; TABLE_TYPE := "BASE TABLE";
       table_columns := [ column 1 "AT" "TIMESTAMP_NTZ" "NO" ] |};
    {| TABLE_SCHEMA := "PUBLIC"; TABLE_NAME := "ACTIVE_USERS"; TABLE_TYPE := "VIEW";
       table_columns := [ column 1 "ID" "NUMBER" "NO" ] |};
    {| TABLE_SCHEMA := "PUBLIC"; TABLE_NAME := "ORDERS"; TABLE_TYPE := "BASE TABLE";
       table_columns := [ column 1 "ORDER_ID" "NUMBER" "NO";
                          column 3 "NOTE" "VARIANT" "YES";
                          column 2 "AMOUNT" "NUMBER" "YES" ] |} ].

Definition rows (db sch tbl col : string) (limit : Z) : list Py.value :=
  Py.slice_to (Z.max 0 limit)
    (if decide (tbl = "USERS" ∧ col = "ID") then [Py.VInt 1; Py.VInt 2]
     else if decide (tbl = "USERS" ∧ col = "EMAIL") then [Py.VStr "a@x.com"]
     else if decide (tbl = "ORDERS" ∧ col = "ORDER_ID") then [Py.VInt 10; Py.VInt 11; Py.VInt 12]
     else []).

(** The warehouse, given what a login answers and which statements
    fail. *)
Definition wh (login : option string) (fault : Query → option string)
  : Warehouse :=
  {| wh_login := λ _, login;
     wh_catalog := λ db, if decide (db = "DB") then catalog else [];
     wh_fault := fault;
     wh_rows := rows |}.

Definition no_fault : Query → option string := λ _, None.

(** Sample statements on column [NOTE] fail: its type cannot be compared
    for [DISTINCT]. *)
Definition note_fault (q : Query) : option string :=
  match q with
  | SelectSample _ _ _ col _ =>
      if decide (col = "NOTE") then Some "SQL compilation error" else None
  | _ => None
  end.

(** The metadata statement fails for table [ORDERS]. *)
Definition orders_fault (q : Query) : option string :=
  match q with
  | SelectColumns _ _ tbl =>
      if decide (tbl = "ORDERS") then Some "Network is unreachable" else None
  | _ => None
  end.

Definition cfg : Config :=
  {| account := "acme"; user := "analyst"; password := "secret";
     warehouse := "WH"; database := "DB"; schema := "PUBLIC" |}.

(** A plain rendering of the result frame: comma-separated fields, a
    field put between double quotes when it holds a comma, a double
    quote or a line break, lines ended by a line feed, the keys of the
    dictionaries as the first line (none for an empty frame). *)
Definition dquote : string := String (Ascii.ascii_of_nat 34) EmptyString.

Fixpoint needs_quotes (s : string) : bool :=
  match s with
  | EmptyString => false
  | String a rest =>
      bool_decide (a ∈ [Ascii.ascii_of_nat 44; Ascii.ascii_of_nat 34;
                        Ascii.ascii_of_nat 10; Ascii.ascii_of_nat 13])
      || needs_quotes rest
  end.

Fixpoint double_quotes (s : string) : string :=
  match s with
  | EmptyString => EmptyString
  | String a rest =>
      if decide (a = Ascii.ascii_of_nat 34)
      then String a (String a (double_quotes rest))
      else String a (double_quotes rest)
  end.

Definition csv_field (s : string) : string :=
  if needs_quotes s then dquote +:+ double_quotes s +:+ dquote else s.

Definition csv_line (fields : list string) : string :=
  Py.join "," (csv_field <$> fields) +:+ Py.nl.

Definition row_fields (r : AnalysisRow) : list string :=
  [row_table r; row_column r; row_type r; row_nullable r; row_samples r].

Definition csv_text (df : DataFrame) : string :=
  csv_line (if df is [] then [] else row_keys)
  +:+ String.concat EmptyString (csv_line ∘ row_fields <$> df).

Definition pandas : Pandas :=
  {| to_string := λ df, Py.join Py.nl (Py.join "  " ∘ row_fields <$> df);
     to_csv := csv_text |}.

(** A state with one open session, as [connect] leaves it. *)
Definition connected : State :=
  {| connection := Some 0%nat; sessions := [true]; files := ∅; trace := [] |}.

(** The warehouse in which nothing fails. *)
Definition sound : Warehouse := wh None no_fault.

Definition row (table column type nullable samples : string) : AnalysisRow :=
  {| row_table := table; row_column := column; row_type := type;
     row_nullable := nullable; row_samples := samples |}.

(** The report of schema [PUBLIC] with five samples a column. *)
Definition public_report : DataFrame :=
  [ row "ORDERS" "ORDER_ID" "NUMBER" "NO" "10, 11, 12";
    row "ORDERS" "AMOUNT" "NUMBER" "YES" EmptyString;
    row "ORDERS" "NOTE" "VARIANT" "YES" EmptyString;
    row "USERS" "ID" "NUMBER" "NO" "1, 2";
    row "USERS" "EMAIL" "VARCHAR" "YES" "a@x.com" ].

End Demo.

(** ** The statements of a run *)

(** The statements executed among the events, oldest first. *)
Definition executed (evs : list event) : list Query :=
  omap (λ e, if e is EvExecute _ q then Some q else None) evs.

(** [Runs sid m o qs]: on every state where [sid] is the open session of
    the detector, [m] ends with [o], changes nothing but the trace, and the
    statements it executes are [qs], in that order. *)
Definition Runs {A} (sid : nat) (m : M A) (o : outcome A) (qs : list Query) : Prop :=
  ∀ st, live sid st →
    (m st).1 = o ∧ only_trace st (m st).2 ∧
    ∃ evs, trace (m st).2 = trace st ++ evs ∧ executed evs = qs.

Section Statements.

Context (wh : Warehouse) (self : Config).

(** The sample statements of a table: one for each column the metadata
    statement returns, in the order returned. *)
Definition sample_statements (sample_size : Z) (table : string) : list Query :=
  (λ c, SelectSample (database self) (schema self) table (COLUMN_NAME c) sample_size)
    <$> select_columns wh (database self) (schema self) table.

(** The statements of one turn of the loop over the tables. *)
Definition table_statements (sample_size : Z) (table : string) : list Query :=
  SelectColumns (database self) (schema self) table
    :: sample_statements sample_size table.

(** The statements of the loop over the tables: it stops at the first
    metadata statement that fails. *)
Fixpoint tables_statements (sample_size : Z) (tables : list string) : list Query :=
  match tables with
  | [] => []
  | t :: rest =>
      match wh_fault wh (SelectColumns (database self) (schema self) t) with
      | Some _ => [SelectColumns (database self) (schema self) t]
      | None => table_statements sample_size t ++ tables_statements sample_size rest
      end
  end.

(** The statements of [analyze_schema] on an open session. *)
Definition analysis_statements (sample_size : Z) (specific_tables : option (list string))
  : list Query :=
  if truthy specific_tables
  then tables_statements sample_size (default [] specific_tables)
  else
    SelectTables (database self) (schema self)
      :: match wh_fault wh (SelectTables (database self) (schema self)) with
         | Some _ => []
         | None => tables_statements sample_size
                     (select_tables wh (database self) (schema self))
         end.

End Statements.

(** The warehouse with other failures. *)
Definition with_faults (wh : Warehouse) (fault : Query → option string) : Warehouse :=
  {| wh_login := wh_login wh; wh_catalog := wh_catalog wh;
     wh_fault := fault; wh_rows := wh_rows wh |}.

(** The statement is a sample statement of column [c] of table [t]. *)
Definition samples_column (t c : string) (q : Query) : bool :=
  match q with
  | SelectSample _ _ t' c' _ => bool_decide (t' = t ∧ c' = c)
  | _ => false
  end.

(** The event is a printed line or the execution of a statement: not a
    login, not the closing of a session, not the writing of a file. *)
Definition reads (e : event) : bool :=
  match e with
  | EvPrint _ | EvExecute _ _ => true
  | _ => false
  end.

(** The event closes a session or writes a file. *)
Definition closes_or_writes (e : event) : bool :=
  match e with
  | EvClose _ | EvWrite _ => true
  | _ => false
  end.

(** The sample statements of column [NOTE] of table [ORDERS] fail, and
    nothing else does. *)
Definition orders_note_fault (q : Query) : option string :=
  if samples_column "ORDERS" "NOTE" q then Some "SQL compilation error" else None.

(** A detector that was connected and disconnected: [self.connection]
    still refers to session 0, which is closed. *)
Definition disconnected : State :=
  {| connection := Some 0%nat; sessions := [false]; files := ∅; trace := [] |}.

(** Two rows stand for the same column, and are the same row unless the
    column is column [c] of table [t]. *)
Definition same_row_but (t c : string) (r1 r2 : AnalysisRow) : Prop :=
  row_key r1 = row_key r2 ∧ (row_key r1 ≠ (t, c) → r1 = r2).

(** ** Two statements the script does not meet as they are written *)



(** * Properties

    First what the building blocks do, then, from [The table list] on, the
    properties of the detector itself. *)

#[global] Instance only_trace_preorder : PreOrder only_trace.
Proof.
  split.
  - intros st. repeat split. exists []. by rewrite app_nil_r.
  - intros a b c (Hc1 & Hs1 & Hf1 & e1 & Ht1) (Hc2 & Hs2 & Hf2 & e2 & Ht2).
    repeat split; [congruence..|].
    exists (e1 ++ e2). by rewrite Ht2, Ht1, (assoc_L (++)).
Qed.

Lemma only_trace_live sid st st' : only_trace st st' → live sid st → live sid st'.
Proof. intros (Hc & Hs & _) [??]. split; congruence. Qed.

Lemma Quiet_ret {A} (a : A) : Quiet (ret a).
Proof. intros st. reflexivity. Qed.

Lemma Quiet_raise {A} e : Quiet (@raise A e).
Proof. intros st. reflexivity. Qed.

Lemma Quiet_emit e : Quiet (emit e).
Proof. intros st. repeat split. by exists [e]. Qed.

Lemma Quiet_print line : Quiet (print line).
Proof. apply Quiet_emit. Qed.

Lemma Quiet_get_connection : Quiet get_connection.
Proof. intros st. reflexivity. Qed.

Lemma Quiet_bind {A B} (m : M A) (k : A → M B) :
  Quiet m → (∀ a, Quiet (k a)) → Quiet (bind m k).
Proof.
  intros Hm Hk st. unfold bind. specialize (Hm st).
  destruct (m st) as [[a|e] st1]; simpl in *; [|done].
  etrans; [exact Hm|apply Hk].
Qed.

Lemma Quiet_try_except {A} (m : M A) h :
  Quiet m → (∀ e, Quiet (h e)) → Quiet (try_except m h).
Proof.
  intros Hm Hh st. unfold try_except. specialize (Hm st).
  destruct (m st) as [[a|e] st1]; simpl in *; [done|].
  etrans; [exact Hm|apply Hh].
Qed.

Lemma Quiet_for_each {A S} (l : list A) (body : A → S → M S) s :
  (∀ x s, Quiet (body x s)) → Quiet (for_each l body s).
Proof.
  intros Hb. revert s. induction l as [|x l IH]; intros s; simpl.
  - apply Quiet_ret.
  - apply Quiet_bind; auto.
Qed.

#[global] Hint Resolve Quiet_ret Quiet_raise Quiet_emit Quiet_print
  Quiet_get_connection Quiet_bind Quiet_try_except Quiet_for_each : quiet.

Lemma Yields_ret {A} sid (a : A) : Yields sid (ret a) (Ret a).
Proof. intros st _. split; [done|apply Quiet_ret]. Qed.

Lemma Yields_print sid line : Yields sid (print line) (Ret tt).
Proof. intros st _. split; [done|apply Quiet_print]. Qed.

Lemma Yields_get_connection sid : Yields sid get_connection (Ret (Some sid)).
Proof. intros st [Hc _]. split; [|done]. unfold get_connection; simpl. by rewrite Hc. Qed.

(** A computation that returns on an open session hands the session on. *)
Lemma Yields_bind {A B} sid (m : M A) (k : A → M B) a o :
  Yields sid m (Ret a) → Yields sid (k a) o → Yields sid (bind m k) o.
Proof.
  intros Hm Hk st Hl. unfold bind. destruct (Hm st Hl) as [Hr Hq].
  destruct (m st) as [r st1]; simpl in *; subst r.
  destruct (Hk st1 (only_trace_live _ _ _ Hq Hl)) as [Hr' Hq'].
  split; [done|by etrans].
Qed.

(** A computation that raises on an open session ends the sequence. *)
Lemma Yields_raise {A B} sid (m : M A) (k : A → M B) e :
  Yields sid m (Raise e) → Yields sid (bind m k) (Raise e).
Proof.
  intros Hm st Hl. unfold bind. destruct (Hm st Hl) as [Hr Hq].
  by destruct (m st) as [r st1]; simpl in *; subst r.
Qed.

(** [let* x := m in ret x] is [m]. *)
Lemma Yields_bind_ret {A} sid (m : M A) o :
  Yields sid m o → Yields sid (bind m ret) o.
Proof.
  intros Hm st Hl. unfold bind. destruct (Hm st Hl) as [Hr Hq].
  by destruct (m st) as [[a|e] st1]; simpl in *; subst o.
Qed.

(** ** What a run adds to the trace *)

Lemma Emits_weaken {A} (P Q : event → Prop) (m : M A) :
  (∀ e, P e → Q e) → Emits P m → Emits Q m.
Proof.
  intros HPQ Hm st. destruct (Hm st) as (evs & Ht & Hall).
  exists evs. split; [done|]. eapply Forall_impl; eauto.
Qed.

Lemma Emits_ret {A} P (a : A) : Emits P (ret a).
Proof. intros st. exists []. by rewrite app_nil_r. Qed.

Lemma Emits_raise {A} P e : Emits P (@raise A e).
Proof. intros st. exists []. by rewrite app_nil_r. Qed.

Lemma Emits_get_connection P : Emits P get_connection.
Proof. intros st. exists []. by rewrite app_nil_r. Qed.

Lemma Emits_set_connection P c : Emits P (set_connection c).
Proof. intros st. exists []. by rewrite app_nil_r. Qed.

Lemma Emits_emit (P : event → Prop) e : P e → Emits P (emit e).
Proof. intros HP st. exists [e]. split; [done|]. by constructor. Qed.

Lemma Emits_bind {A B} P (m : M A) (k : A → M B) :
  Emits P m → (∀ a, Emits P (k a)) → Emits P (bind m k).
Proof.
  intros Hm Hk st. unfold bind. destruct (Hm st) as (e1 & Ht1 & H1).
  destruct (m st) as [[a|e] st1]; simpl in *; [|eauto].
  destruct (Hk a st1) as (e2 & Ht2 & H2). exists (e1 ++ e2).
  split; [by rewrite Ht2, Ht1, (assoc_L (++))|by apply Forall_app].
Qed.

Lemma Emits_try_except {A} P (m : M A) h :
  Emits P m → (∀ e, Emits P (h e)) → Emits P (try_except m h).
Proof.
  intros Hm Hh st. unfold try_except. destruct (Hm st) as (e1 & Ht1 & H1).
  destruct (m st) as [[a|e] st1]; simpl in *; [eauto|].
  destruct (Hh e st1) as (e2 & Ht2 & H2). exists (e1 ++ e2).
  split; [by rewrite Ht2, Ht1, (assoc_L (++))|by apply Forall_app].
Qed.

Lemma Emits_for_each {A S} P (l : list A) (body : A → S → M S) s :
  (∀ x s, Emits P (body x s)) → Emits P (for_each l body s).
Proof.
  intros Hb. revert s. induction l as [|x l IH]; intros s; simpl.
  - apply Emits_ret.
  - apply Emits_bind; auto.
Qed.

Create HintDb emits discriminated.

#[global] Hint Resolve Emits_ret Emits_raise Emits_get_connection Emits_set_connection
  Emits_emit Emits_bind Emits_try_except Emits_for_each : emits.

Section DetectorFacts.

Context (wh : Warehouse) (pd : Pandas) (self : Config).

Lemma Quiet_cursor : Quiet cursor.
Proof.
  apply Quiet_bind; [apply Quiet_get_connection|].
  intros [sid|]; [|apply Quiet_raise].
  intros st. by destruct (sessions st !! sid) as [[]|].
Qed.

Lemma Quiet_execute sid q : Quiet (execute wh sid q).
Proof. unfold execute. destruct (wh_fault wh q); auto with quiet. Qed.

Hint Resolve Quiet_cursor Quiet_execute : quiet.

Lemma Quiet_get_tables : Quiet (get_tables wh self).
Proof. unfold get_tables. auto with quiet. Qed.

Lemma Quiet_get_columns_info t : Quiet (get_columns_info wh self t).
Proof. unfold get_columns_info. auto with quiet. Qed.

Lemma Quiet_get_sample_values t c n : Quiet (get_sample_values wh self t c n).
Proof. unfold get_sample_values. auto 6 with quiet. Qed.

Hint Resolve Quiet_get_tables Quiet_get_columns_info Quiet_get_sample_values : quiet.

Lemma Quiet_analyze_column n t c acc : Quiet (analyze_column wh self n t c acc).
Proof. unfold analyze_column. auto 6 with quiet. Qed.

Hint Resolve Quiet_analyze_column : quiet.

Lemma Quiet_analyze_table n t acc : Quiet (analyze_table wh self n t acc).
Proof. unfold analyze_table. auto 6 with quiet. Qed.

Hint Resolve Quiet_analyze_table : quiet.

Lemma Quiet_analyze_tables n tables acc :
  Quiet (for_each tables (analyze_table wh self n) acc).
Proof. auto with quiet. Qed.

End DetectorFacts.

(** ** The methods on an open session *)

Section OnSession.

Context (wh : Warehouse) (pd : Pandas) (self : Config).

Hint Resolve Quiet_cursor Quiet_execute Quiet_get_tables Quiet_get_columns_info
  Quiet_get_sample_values Quiet_analyze_column Quiet_analyze_table : quiet.

Lemma cursor_live sid st : live sid st → cursor st = (Ret sid, st).
Proof. intros [Hc Hs]. unfold cursor, bind, get_connection. by rewrite Hc, Hs. Qed.

(** Without an open session behind [self.connection], [cursor] raises. *)
Lemma cursor_dead st :
  (∀ sid, ¬ live sid st) → ∃ e, cursor st = (Raise e, st).
Proof.
  intros Hdead. unfold cursor, bind, get_connection, raise.
  destruct (connection st) as [sid|] eqn:Hc; [|eauto].
  destruct (sessions st !! sid) as [[]|] eqn:Hs; eauto.
  destruct (Hdead sid). by split.
Qed.

Lemma get_tables_live sid st :
  live sid st →
  (get_tables wh self st).1 =
    match wh_fault wh (SelectTables (database self) (schema self)) with
    | Some msg => Raise (Exn QueryError msg)
    | None => Ret (select_tables wh (database self) (schema self))
    end.
Proof.
  intros Hl. unfold get_tables, bind. rewrite (cursor_live sid) by done.
  unfold execute, bind, emit. by destruct (wh_fault wh _).
Qed.

Lemma get_columns_info_live sid st t :
  live sid st →
  (get_columns_info wh self t st).1 =
    match wh_fault wh (SelectColumns (database self) (schema self) t) with
    | Some msg => Raise (Exn QueryError msg)
    | None => Ret (select_columns wh (database self) (schema self) t)
    end.
Proof.
  intros Hl. unfold get_columns_info, bind. rewrite (cursor_live sid) by done.
  unfold execute, bind, emit. by destruct (wh_fault wh _).
Qed.

(** Whatever the state, a value returned by [get_columns_info] is the
    answer to the metadata statement. *)
Lemma get_columns_info_ret st t cols :
  (get_columns_info wh self t st).1 = Ret cols →
  cols = select_columns wh (database self) (schema self) t.
Proof.
  unfold get_columns_info, bind. destruct (cursor st) as [[sid|e] st1]; [|done].
  unfold execute, bind, emit; simpl. destruct (wh_fault wh _); [done|].
  unfold ret; simpl. congruence.
Qed.



Lemma get_sample_values_live sid st t c n :
  live sid st →
  (get_sample_values wh self t c n st).1 = Ret (sample_values wh self t c n).
Proof.
  intros Hl. unfold get_sample_values, sample_values, try_except, bind.
  rewrite (cursor_live sid) by done.
  unfold execute, bind, emit, raise, ret; simpl. by destruct (wh_fault wh _).
Qed.

Lemma analyze_column_live sid st n t c acc :
  live sid st →
  (analyze_column wh self n t c acc st).1 = Ret (acc ++ [report_row wh self n t c]).
Proof.
  intros Hl. unfold analyze_column, bind.
  pose proof (get_sample_values_live sid st t (COLUMN_NAME c) n Hl) as Hv.
  destruct (get_sample_values _ _ _ _ _ _) as [[vs|e] st1]; simpl in Hv; [|done].
  by injection Hv as ->.
Qed.

Lemma analyze_columns_live sid n t cols : ∀ acc st,
  live sid st →
  (for_each cols (analyze_column wh self n t) acc st).1
  = Ret (acc ++ (report_row wh self n t <$> cols)).
Proof.
  induction cols as [|c cols IH]; intros acc st Hl; simpl.
  - by rewrite app_nil_r.
  - unfold bind.
    pose proof (analyze_column_live sid st n t c acc Hl) as Hc.
    pose proof (Quiet_analyze_column wh self n t c acc st) as Hq.
    destruct (analyze_column _ _ _ _ _ _ _) as [[r|e] st1]; simpl in *; [|done].
    injection Hc as ->. rewrite IH by eauto using only_trace_live.
    by rewrite <- (assoc_L (++)).
Qed.

Lemma analyze_table_live sid st n t acc :
  live sid st →
  (analyze_table wh self n t acc st).1 =
    match wh_fault wh (SelectColumns (database self) (schema self) t) with
    | Some msg => Raise (Exn QueryError msg)
    | None => Ret (acc ++ table_report wh self n t)
    end.
Proof.
  intros Hl. unfold analyze_table, bind, print, emit.
  set (st0 := {| connection := _ |}).
  assert (live sid st0) as Hl0 by (destruct Hl; by split).
  pose proof (get_columns_info_live sid st0 t Hl0) as Hc.
  pose proof (Quiet_get_columns_info wh self t st0) as Hq.
  destruct (get_columns_info _ _ _ _) as [[cols|e] st1]; simpl in *.
  - destruct (wh_fault wh _); [done|]. injection Hc as ->.
    unfold table_report. apply (analyze_columns_live sid).
    by eapply only_trace_live.
  - destruct (wh_fault wh _); by simplify_eq.
Qed.

Lemma analyze_tables_live sid n tables : ∀ acc st,
  live sid st →
  (for_each tables (analyze_table wh self n) acc st).1 =
    match columns_fault wh self tables with
    | Some msg => Raise (Exn QueryError msg)
    | None => Ret (acc ++ report wh self n tables)
    end.
Proof.
  induction tables as [|t tables IH]; intros acc st Hl; simpl.
  - by rewrite app_nil_r.
  - unfold bind.
    pose proof (analyze_table_live sid st n t acc Hl) as Ht.
    pose proof (Quiet_analyze_table wh self n t acc st) as Hq.
    destruct (analyze_table _ _ _ _ _ _) as [[r|e] st1]; simpl in *.
    + destruct (wh_fault wh _); [done|]. injection Ht as ->.
      rewrite IH by eauto using only_trace_live.
      destruct (columns_fault _ _ _); [done|].
      unfold report; simpl. by rewrite (assoc_L (++)).
    + destruct (wh_fault wh _); by simplify_eq.
Qed.

Lemma Yields_analyze_tables sid n tables :
  Yields sid (for_each tables (analyze_table wh self n) [])
    (tables_outcome wh self n tables).
Proof.
  intros st Hl. split; [|apply Quiet_analyze_tables].
  by rewrite (analyze_tables_live sid).
Qed.

End OnSession.

(** ** Connecting, analysing, running *)

Section Runs.

Context (wh : Warehouse) (pd : Pandas) (self : Config).

Lemma connect_accepted st :
  wh_login wh self = None →
  connect wh self st =
    (Ret tt,
     {| connection := Some (length (sessions st));
        sessions := sessions st ++ [true];
        files := files st;
        trace := trace st ++
                 [EvLogin true;
                  EvPrint ("✓ Snowflakeに接続しました: " +:+ database self +:+ "."
                           +:+ schema self)] |}).
Proof.
  intros Hin. unfold connect, try_except, bind, driver_connect. rewrite Hin.
  unfold bind, emit, set_connection, print, emit; simpl.
  by rewrite <- (assoc_L (++)).
Qed.

Lemma connect_refused st msg :
  wh_login wh self = Some msg →
  connect wh self st =
    (Raise (Exn ConnectionError msg),
     {| connection := connection st;
        sessions := sessions st;
        files := files st;
        trace := trace st ++
                 [EvLogin false; EvPrint ("✗ 接続エラー: " +:+ msg)] |}).
Proof.
  intros Hin. unfold connect, try_except, bind, driver_connect. rewrite Hin.
  unfold bind, emit, raise, print, emit; simpl.
  by rewrite <- (assoc_L (++)).
Qed.

Lemma connect_live st :
  wh_login wh self = None →
  live (length (sessions st)) (connect wh self st).2.
Proof.
  intros Hin. rewrite connect_accepted by done. split; simpl; [done|].
  by rewrite lookup_app_r, Nat.sub_diag.
Qed.

Lemma disconnect_eq st :
  disconnect st =
    match connection st with
    | Some sid =>
        (Ret tt,
         {| connection := connection st;
            sessions := <[sid := false]> (sessions st);
            files := files st;
            trace := trace st ++ [EvClose sid; EvPrint "✓ Snowflakeから切断しました"] |})
    | None => (Ret tt, st)
    end.
Proof.
  unfold disconnect, bind, get_connection.
  destruct (connection st) as [sid|] eqn:Hc; [|done].
  unfold driver_close, bind, emit, print, emit; simpl.
  by rewrite Hc, <- (assoc_L (++)).
Qed.

(** With a session behind it, [analyze_schema] does not connect, changes
    nothing but the trace, and ends as [analysis_outcome] says. *)
Lemma analyze_schema_live sid n tf :
  Yields sid (analyze_schema wh self n tf) (analysis_outcome wh self n tf).
Proof.
  unfold analyze_schema, analysis_outcome.
  eapply Yields_bind; [apply Yields_get_connection|]; simpl.
  eapply Yields_bind; [apply Yields_ret|]; simpl.
  destruct (truthy tf).
  - eapply Yields_bind; [apply Yields_ret|]; simpl.
    eapply Yields_bind; [apply Yields_print|]; simpl.
    apply Yields_bind_ret, Yields_analyze_tables.
  - destruct (wh_fault wh (SelectTables _ _)) eqn:Hf.
    + eapply Yields_raise.
      intros st Hl. split; [|apply Quiet_get_tables].
      by rewrite (get_tables_live wh self sid), Hf.
    + eapply Yields_bind.
      { intros st Hl. split; [|apply Quiet_get_tables].
        by rewrite (get_tables_live wh self sid), Hf. }
      simpl. eapply Yields_bind; [apply Yields_print|]; simpl.
      apply Yields_bind_ret, Yields_analyze_tables.
Qed.

(** When [self.connection] is [None], [analyze_schema] is [connect]
    followed by [analyze_schema]. *)
Lemma analyze_schema_unconnected st n tf :
  connection st = None →
  analyze_schema wh self n tf st
  = (connect wh self >> analyze_schema wh self n tf) st.
Proof.
  intros Hc. unfold analyze_schema, bind, get_connection. rewrite Hc.
  destruct (wh_login wh self) as [msg|] eqn:Hin.
  - by rewrite (connect_refused _ msg).
  - by rewrite connect_accepted.
Qed.

(** *** Without an open session *)

Lemma only_trace_dead st st' :
  only_trace st st' → (∀ sid, ¬ live sid st) → ∀ sid, ¬ live sid st'.
Proof.
  intros (Hc & Hs & _) Hdead sid [??]. apply (Hdead sid). split; congruence.
Qed.

Lemma get_tables_dead st :
  (∀ sid, ¬ live sid st) → ∃ e, (get_tables wh self st).1 = Raise e.
Proof.
  intros Hd. destruct (cursor_dead st Hd) as [e He].
  exists e. unfold get_tables, bind. by rewrite He.
Qed.

Lemma analyze_table_dead st n t acc :
  (∀ sid, ¬ live sid st) → ∃ e, (analyze_table wh self n t acc st).1 = Raise e.
Proof.
  intros Hd. unfold analyze_table, bind at 1.
  pose proof (Quiet_print (Py.nl +:+ "処理中: " +:+ t) st) as Hq.
  destruct (print _ st) as [[[]|e0] st0] eqn:Hp; [|done]. simpl in Hq.
  destruct (cursor_dead st0 (only_trace_dead _ _ Hq Hd)) as [e He].
  exists e. unfold get_columns_info, bind. by rewrite He.
Qed.

Lemma analyze_schema_dead st n tf sid :
  connection st = Some sid → ¬ live sid st →
  ∃ e, (analyze_schema wh self n tf st).1 = Raise e.
Proof.
  intros Hc Hn.
  assert (∀ sid', ¬ live sid' st) as Hd.
  { intros sid' Hl. destruct Hl as [Hc' Hs']. rewrite Hc in Hc'.
    injection Hc' as <-. by apply Hn. }
  unfold analyze_schema, bind at 1 2, get_connection. rewrite Hc. unfold ret at 1.
  destruct tf as [[|t tables]|]; simpl.
  - destruct (get_tables_dead st Hd) as [e He]. exists e.
    unfold bind at 1. by destruct (get_tables wh self st) as [[?|?] ?]; simplify_eq/=.
  - unfold bind at 1, ret at 1. unfold bind at 1.
    pose proof (Quiet_print (Py.nl +:+ "分析対象テーブル数: "
                             +:+ pretty (length (t :: tables))) st) as Hq.
    simpl length in *.
    destruct (print _ st) as [[[]|e0] st0] eqn:Hp; [|done]. simpl in Hq.
    destruct (analyze_table_dead st0 n t [] (only_trace_dead _ _ Hq Hd)) as [e He].
    exists e. simpl for_each. unfold bind at 1 2.
    by destruct (analyze_table _ _ _ _ _ _) as [[?|?] ?]; simplify_eq/=.
  - destruct (get_tables_dead st Hd) as [e He]. exists e.
    unfold bind at 1. by destruct (get_tables wh self st) as [[?|?] ?]; simplify_eq/=.
Qed.

Lemma tables_outcome_ret n tables df :
  tables_outcome wh self n tables = Ret df → df = report wh self n tables.
Proof. unfold tables_outcome. destruct (columns_fault _ _ _); congruence. Qed.

Lemma analysis_outcome_ret n tf df :
  analysis_outcome wh self n tf = Ret df →
  df = report wh self n (table_set wh self tf).
Proof.
  unfold analysis_outcome, table_set. destruct (truthy tf).
  - apply tables_outcome_ret.
  - destruct (wh_fault wh _); [done|]. apply tables_outcome_ret.
Qed.

(** Whatever the state it starts in, a frame returned by
    [analyze_schema] is the report of the tables it went through. *)
Lemma analyze_schema_ret st n tf df st' :
  analyze_schema wh self n tf st = (Ret df, st') →
  df = report wh self n (table_set wh self tf).
Proof.
  intros Hrun. apply analysis_outcome_ret.
  destruct (connection st) as [sid|] eqn:Hc.
  - destruct (decide (live sid st)) as [Hl|Hn].
    + destruct (analyze_schema_live sid n tf st Hl) as [Hr _].
      by rewrite Hrun in Hr.
    + destruct (analyze_schema_dead st n tf sid Hc Hn) as [e He].
      by rewrite Hrun in He.
  - rewrite analyze_schema_unconnected in Hrun by done.
    unfold bind at 1 in Hrun.
    destruct (wh_login wh self) as [msg|] eqn:Hin.
    + by rewrite (connect_refused _ msg) in Hrun.
    + pose proof (connect_live st Hin) as Hl.
      destruct (connect wh self st) as [[[]|e] st1]; [|done]. simpl in Hl.
      destruct (analyze_schema_live _ n tf st1 Hl) as [Hr _].
      by rewrite Hrun in Hr.
Qed.

End Runs.

(** ** The statements a run executes *)

Section TraceFacts.

Context (wh : Warehouse) (pd : Pandas) (self : Config).

Lemma Emits_cursor P : Emits P cursor.
Proof.
  apply Emits_bind; [apply Emits_get_connection|].
  intros [sid|]; [|apply Emits_raise].
  intros st. exists []. rewrite app_nil_r.
  by destruct (sessions st !! sid) as [[]|].
Qed.

Lemma Emits_execute (P : event → Prop) sid q :
  P (EvExecute sid q) → Emits P (execute wh sid q).
Proof. intros HP. unfold execute. destruct (wh_fault wh q); auto with emits. Qed.

Lemma Emits_driver_connect (P : event → Prop) :
  (∀ b, P (EvLogin b)) → Emits P (driver_connect wh self).
Proof.
  intros HP. unfold driver_connect. destruct (wh_login wh self).
  - auto with emits.
  - apply Emits_bind; [auto with emits|].
    intros _ st. exists []. by rewrite app_nil_r.
Qed.

Section NotListing.

(** [P] holds of every event other than the execution of the statement
    that lists the tables. *)
Context (P : event → Prop) (HP : ∀ e, lists_tables e = false → P e).

Local Hint Extern 1 (P _) => (apply HP; reflexivity) : emits.
Local Hint Resolve Emits_cursor Emits_execute Emits_driver_connect : emits.

Lemma Emits_connect : Emits P (connect wh self).
Proof. unfold connect, print. auto 7 with emits. Qed.

Lemma Emits_get_columns_info t : Emits P (get_columns_info wh self t).
Proof. unfold get_columns_info. auto with emits. Qed.

Lemma Emits_get_sample_values t c n : Emits P (get_sample_values wh self t c n).
Proof. unfold get_sample_values. auto 6 with emits. Qed.

Local Hint Resolve Emits_get_columns_info Emits_get_sample_values : emits.

Lemma Emits_analyze_column n t c acc : Emits P (analyze_column wh self n t c acc).
Proof. unfold analyze_column, print. auto 6 with emits. Qed.

Local Hint Resolve Emits_analyze_column : emits.

Lemma Emits_analyze_table n t acc : Emits P (analyze_table wh self n t acc).
Proof. unfold analyze_table, print. auto 6 with emits. Qed.

Lemma Emits_analyze_tables n tables acc :
  Emits P (for_each tables (analyze_table wh self n) acc).
Proof. auto using Emits_analyze_table with emits. Qed.

End NotListing.

Lemma Emits_get_tables (P : event → Prop) :
  (∀ sid, P (EvExecute sid (SelectTables (database self) (schema self)))) →
  Emits P (get_tables wh self).
Proof.
  intros HP. unfold get_tables.
  auto using Emits_cursor, Emits_execute with emits.
Qed.

(** With a table list that is given and not empty, [analyze_schema]
    never executes the statement that lists the tables. *)
Lemma Emits_analyze_schema n tf :
  Emits (λ e, truthy tf = true → lists_tables e = false)
    (analyze_schema wh self n tf).
Proof.
  assert (∀ e, lists_tables e = false →
               truthy tf = true → lists_tables e = false) as HP by done.
  unfold analyze_schema, print.
  apply Emits_bind; [apply Emits_get_connection|]. intros c.
  apply Emits_bind.
  { destruct c; [apply Emits_ret|by apply Emits_connect]. }
  intros _. apply Emits_bind.
  { destruct (truthy tf) eqn:Htf; [apply Emits_ret|].
    apply Emits_get_tables. by intros. }
  intros tables. apply Emits_bind; [by apply Emits_emit|].
  intros _. apply Emits_bind; [by apply Emits_analyze_tables|].
  intros results. apply Emits_ret.
Qed.

End TraceFacts.

(** ** Order and content of the catalog answers *)

#[global] Instance by_name_total : Total by_name.
Proof. intros a b. unfold by_name. apply (total String.le). Qed.

#[global] Instance by_position_total : Total by_position.
Proof. intros a b. unfold by_position. lia. Qed.

Section CatalogFacts.

Context (wh : Warehouse) (db sch : string).

Lemma select_tables_sorted : Sorted String.le (select_tables wh db sch).
Proof.
  unfold select_tables.
  apply (Sorted_fmap _ by_name); [done|]. apply (Sorted_merge_sort by_name).
Qed.

Lemma select_tables_perm :
  select_tables wh db sch
  ≡ₚ TABLE_NAME <$> filter (is_base_table_of sch) (wh_catalog wh db).
Proof. unfold select_tables. by rewrite merge_sort_Permutation. Qed.

Lemma elem_of_select_tables name :
  name ∈ select_tables wh db sch ↔
  ∃ o, o ∈ wh_catalog wh db ∧ TABLE_SCHEMA o = sch ∧
       TABLE_TYPE o = "BASE TABLE" ∧ TABLE_NAME o = name.
Proof.
  rewrite select_tables_perm, list_elem_of_fmap. split.
  - intros (o & -> & [[Hs Ht] Ho]%list_elem_of_filter). eauto.
  - intros (o & Ho & Hs & Ht & <-). exists o. split; [done|].
    apply list_elem_of_filter. by repeat split.
Qed.

Lemma select_tables_empty :
  Forall (λ o, TABLE_SCHEMA o ≠ sch) (wh_catalog wh db) →
  select_tables wh db sch = [].
Proof.
  intros Hall. unfold select_tables.
  assert (filter (is_base_table_of sch) (wh_catalog wh db) = []) as ->; [|done].
  induction Hall as [|o l Ho _ IH]; [done|].
  rewrite filter_cons_False; [done|]. by intros [? _].
Qed.

(** The metadata statement answers with the columns the catalog holds
    for the table, by position. *)
Lemma select_columns_ordered tbl :
  ∃ cols, select_columns wh db sch tbl = descriptor <$> cols ∧
          Sorted by_position cols ∧
          cols ≡ₚ catalog_columns (wh_catalog wh db) sch tbl.
Proof.
  exists (merge_sort by_position (catalog_columns (wh_catalog wh db) sch tbl)).
  split; [done|]. split.
  - apply (Sorted_merge_sort by_position).
  - apply merge_sort_Permutation.
Qed.


End CatalogFacts.

(** ** The run as a whole *)

Section RunFacts.

Context (wh : Warehouse) (pd : Pandas) (self : Config).

Lemma columns_fault_sound tables :
  catalog_sound wh → columns_fault wh self tables = None.
Proof.
  intros Hs. induction tables as [|t tables IH]; [done|]; simpl.
  by rewrite (Hs (SelectColumns _ _ _)).
Qed.

Lemma analysis_outcome_sound n tf :
  catalog_sound wh →
  analysis_outcome wh self n tf = Ret (report wh self n (table_set wh self tf)).
Proof.
  intros Hs. unfold analysis_outcome, table_set, tables_outcome.
  destruct (truthy tf).
  - by rewrite columns_fault_sound.
  - by rewrite (Hs (SelectTables _ _)), columns_fault_sound.
Qed.

Lemma analyze_schema_returns_report st n tf df :
  (analyze_schema wh self n tf st).1 = Ret df →
  df = report wh self n (table_set wh self tf).
Proof.
  destruct (analyze_schema wh self n tf st) as [r st'] eqn:Hrun; simpl.
  intros ->. by eapply analyze_schema_ret.
Qed.

(** What the [try] block of [main] ends with and leaves behind. *)
Lemma run_body_facts n tf st :
  let r := run_body wh pd self n tf st in
  r.1 = match run_outcome wh self n tf with
        | Ret _ => Ret tt
        | Raise e => Raise e
        end ∧
  files r.2 = match run_outcome wh self n tf with
              | Ret df => <[csv_path := BOM +:+ to_csv pd df]> (files st)
              | Raise _ => files st
              end ∧
  match wh_login wh self with
  | None => connection r.2 = Some (length (sessions st)) ∧
            sessions r.2 = sessions st ++ [true]
  | Some _ => connection r.2 = connection st ∧ sessions r.2 = sessions st
  end.
Proof.
  simpl. destruct (run_body wh pd self n tf st) as [o st'] eqn:Hrb; simpl.
  unfold run_body, run_outcome in *. unfold bind at 1 in Hrb.
  destruct (wh_login wh self) as [msg|] eqn:Hin.
  { rewrite (connect_refused _ _ _ msg) in Hrb by done. by simplify_eq. }
  pose proof (connect_live wh self st Hin) as Hl.
  rewrite connect_accepted in Hrb, Hl by done. simpl in Hl.
  set (st1 := {| connection := _ |}) in *.
  destruct (analyze_schema_live wh self _ n tf st1 Hl) as [Hr (Hc & Hs & Hf & _)].
  unfold bind at 1 in Hrb.
  destruct (analyze_schema wh self n tf st1) as [[df|e] st2]; simpl in *;
    rewrite <- Hr; simpl.
  - unfold export_to_csv, write_file, bind, print, emit in Hrb; simpl in Hrb.
    simplify_eq; simpl. by rewrite Hc, Hs, Hf.
  - simplify_eq. by rewrite Hc, Hs, Hf.
Qed.

Lemma all_closed_after_close st sid :
  all_closed st → Forall (λ b, b = false) (<[sid := false]> (sessions st)).
Proof.
  intros Hall. unfold all_closed in Hall.
  destruct (decide (sid < length (sessions st))) as [Hlt|Hge].
  - by apply Forall_insert.
  - by rewrite list_insert_ge by lia.
Qed.

(** [main] ends normally whatever happened in its [try] block; the file
    it exports is the only file it touches, and only when the block did
    not raise; every session is closed at the end. *)
Lemma run_facts n tf st :
  let r := run wh pd self n tf st in
  r.1 = Ret tt ∧
  files r.2 = match run_outcome wh self n tf with
              | Ret df => <[csv_path := BOM +:+ to_csv pd df]> (files st)
              | Raise _ => files st
              end ∧
  (all_closed st → all_closed r.2) ∧
  (∀ e, run_outcome wh self n tf = Raise e → EvPrint (error_line e) ∈ trace r.2).
Proof.
  unfold run, try_finally, try_except.
  destruct (run_body_facts n tf st) as (Hr & Hf & Hs).
  destruct (run_body wh pd self n tf st) as [r st1]; simpl in *.
  assert (all_closed st → ∀ tr,
            all_closed (disconnect {| connection := connection st1;
                                      sessions := sessions st1;
                                      files := files st1; trace := tr |}).2) as Hclosed.
  { intros Hall tr. rewrite disconnect_eq; simpl.
    destruct (wh_login wh self).
    - destruct Hs as [Hc ->].
      destruct (connection st1); [|done]. by apply all_closed_after_close.
    - destruct Hs as [-> Hs]. unfold all_closed; simpl. rewrite Hs.
      rewrite insert_app_r_alt, Nat.sub_diag by done. simpl.
      apply Forall_app. by split; [|repeat constructor]. }
  destruct (run_outcome wh self n tf) as [df|e]; subst r.
  - rewrite disconnect_eq.
    specialize (λ H, Hclosed H (trace st1)). rewrite disconnect_eq in Hclosed.
    destruct st1 as [c1 s1 f1 t1]; simpl in *.
    destruct c1; simpl in *; by repeat split.
  - unfold print, emit; simpl.
    specialize (λ H, Hclosed H (trace st1 ++ [EvPrint (error_line e)])).
    rewrite disconnect_eq in *; simpl in *.
    destruct (connection st1); simpl in *.
    + repeat split; [done..|]. intros e' [= <-]. set_solver.
    + repeat split; [done..|]. intros e' [= <-]. set_solver.
Qed.

End RunFacts.

(** * The table list *)

Section TableList.

Context (wh : Warehouse) (self : Config).

(** C7: on an open session, when the statement itself does not fail,
    [get_tables] returns the names of the base tables of the configured
    schema and of nothing else (no view, no object of another schema),
    each as often as the catalog holds it, in lexicographic order; when
    the schema holds no object the list is empty, and it is returned, not
    raised. *)
Theorem get_tables_lists_base_tables sid st :
  live sid st →
  wh_fault wh (SelectTables (database self) (schema self)) = None →
  ∃ tables,
    (get_tables wh self st).1 = Ret tables ∧
    Sorted String.le tables ∧
    (∀ name, name ∈ tables ↔
             ∃ o, o ∈ wh_catalog wh (database self) ∧
                  TABLE_SCHEMA o = schema self ∧
                  TABLE_TYPE o = "BASE TABLE" ∧ TABLE_NAME o = name) ∧
    tables ≡ₚ TABLE_NAME <$> filter (is_base_table_of (schema self))
                               (wh_catalog wh (database self)) ∧
    (schema_empty wh self → tables = []).
Proof.
  intros Hl Hok. exists (select_tables wh (database self) (schema self)).
  split; [by rewrite (get_tables_live wh self sid), Hok|].
  split; [apply select_tables_sorted|].
  split; [apply elem_of_select_tables|].
  split; [apply select_tables_perm|apply select_tables_empty].
Qed.

End TableList.

Lemma get_tables_lists_base_tables_witness :
  live 0 Demo.connected ∧
  wh_fault Demo.sound (SelectTables (database Demo.cfg) (schema Demo.cfg)) = None ∧
  ∃ tables,
    (get_tables Demo.sound Demo.cfg Demo.connected).1 = Ret tables ∧
    Sorted String.le tables ∧
    (∀ name, name ∈ tables ↔
             ∃ o, o ∈ wh_catalog Demo.sound (database Demo.cfg) ∧
                  TABLE_SCHEMA o = schema Demo.cfg ∧
                  TABLE_TYPE o = "BASE TABLE" ∧ TABLE_NAME o = name) ∧
    tables ≡ₚ TABLE_NAME <$> filter (is_base_table_of (schema Demo.cfg))
                               (wh_catalog Demo.sound (database Demo.cfg)) ∧
    (schema_empty Demo.sound Demo.cfg → tables = []).
Proof.
  assert (live 0 Demo.connected) as Hl by (split; reflexivity).
  split; [exact Hl|]. split; [reflexivity|].
  exact (get_tables_lists_base_tables Demo.sound Demo.cfg 0 Demo.connected Hl eq_refl).
Defined.

(** On the concrete catalog: the two base tables of [PUBLIC], the view and
    the table of [STAGING] left out, [ORDERS] before [USERS]. *)
Example get_tables_public :
  (get_tables Demo.sound Demo.cfg Demo.connected).1 = Ret ["ORDERS"; "USERS"].
Proof. reflexivity. Qed.

(** A schema the catalog holds nothing of: the empty list, returned. *)
Example get_tables_empty_schema :
  (get_tables Demo.sound
     {| account := "acme"; user := "analyst"; password := "secret";
        warehouse := "WH"; database := "DB"; schema := "ARCHIVE" |}
     Demo.connected).1 = Ret [].
Proof. reflexivity. Qed.

(** * The rows of the report *)

Section ReportRows.

Context (wh : Warehouse) (self : Config).

(** The key of every row of a table's report, column by column. *)
Lemma row_key_table_report n t :
  row_key <$> table_report wh self n t
  = (λ c, (t, COLUMN_NAME c)) <$> select_columns wh (database self) (schema self) t.
Proof. unfold table_report. by rewrite <- list_fmap_compose. Qed.

Lemma row_column_table_report n t :
  row_column <$> table_report wh self n t
  = COLUMN_NAME <$> select_columns wh (database self) (schema self) t.
Proof. unfold table_report. by rewrite <- list_fmap_compose. Qed.

Lemma row_key_report n tables :
  row_key <$> report wh self n tables
  = tables ≫= (λ t, (λ c, (t, COLUMN_NAME c))
                      <$> select_columns wh (database self) (schema self) t).
Proof.
  unfold report. induction tables as [|t tables IH]; [done|].
  by rewrite !bind_cons, fmap_app, IH, row_key_table_report.
Qed.

(** The rows of table [t] within the report of table [t']: all of them
    when [t'] is [t], none otherwise. *)
Lemma filter_table_report n t t' :
  filter (λ r, row_table r = t) (table_report wh self n t')
  = if decide (t' = t) then table_report wh self n t' else [].
Proof.
  unfold table_report.
  induction (select_columns wh (database self) (schema self) t') as [|c cols IH].
  { by destruct (decide (t' = t)). }
  rewrite fmap_cons. destruct (decide (t' = t)) as [Heq|Hne].
  - by rewrite filter_cons_True, IH.
  - by rewrite filter_cons_False, IH.
Qed.

Lemma row_column_filter_report n t tables :
  row_column <$> filter (λ r, row_table r = t) (report wh self n tables)
  = mjoin (replicate (length (filter (λ t', t' = t) tables))
             (COLUMN_NAME <$> select_columns wh (database self) (schema self) t)).
Proof.
  unfold report. induction tables as [|t' tables IH]; [done|].
  rewrite bind_cons, filter_app, fmap_app, IH, filter_table_report.
  destruct (decide (t' = t)) as [->|Hne].
  - by rewrite filter_cons_True, row_column_table_report.
  - by rewrite filter_cons_False.
Qed.

(** C5: whenever [analyze_schema] returns a frame, the (table, column)
    pairs of its rows, read in order, are the pairs (table, column name)
    of the columns the metadata statement returns for the first table,
    then those for the second, and so on: one row for each returned
    column, none left out, none added, table after table and within a
    table in the order returned.  Every row is the row of a column
    returned for its table; and what the metadata statement returns for a
    table is what [get_columns_info] returns, whenever it returns. *)
Theorem report_rows_are_the_metadata_columns st n tf df :
  (analyze_schema wh self n tf st).1 = Ret df →
  row_key <$> df
  = table_set wh self tf ≫=
      (λ t, (λ c, (t, COLUMN_NAME c))
              <$> select_columns wh (database self) (schema self) t) ∧
  (∀ r, r ∈ df →
        row_table r ∈ table_set wh self tf ∧
        ∃ c, c ∈ select_columns wh (database self) (schema self) (row_table r) ∧
             row_column r = COLUMN_NAME c) ∧
  (∀ t st1 cols,
     (get_columns_info wh self t st1).1 = Ret cols →
     cols = select_columns wh (database self) (schema self) t).
Proof.
  intros ->%analyze_schema_returns_report. split; [apply row_key_report|].
  split; [|intros t st1 cols; apply get_columns_info_ret].
  intros r (t & Hr & Ht)%list_elem_of_bind.
  apply list_elem_of_fmap in Hr as (c & -> & Hc). simpl. eauto.
Qed.

(** C6: whenever [analyze_schema] returns a frame, the rows of a table,
    taken out of the frame in the order they stand there, name the columns
    in the order the metadata fetch returns them (once for every time the
    table is gone through); and that order is the order of
    [ORDINAL_POSITION] over the columns the catalog holds for the table,
    whatever their names. *)
Theorem report_keeps_the_position_order st n tf df t :
  (analyze_schema wh self n tf st).1 = Ret df →
  row_column <$> filter (λ r, row_table r = t) df
  = mjoin (replicate (length (filter (λ t', t' = t) (table_set wh self tf)))
             (COLUMN_NAME <$> select_columns wh (database self) (schema self) t)) ∧
  (∀ st1 cols,
     (get_columns_info wh self t st1).1 = Ret cols →
     cols = select_columns wh (database self) (schema self) t) ∧
  ∃ cols,
    select_columns wh (database self) (schema self) t = descriptor <$> cols ∧
    Sorted by_position cols ∧
    cols ≡ₚ catalog_columns (wh_catalog wh (database self)) (schema self) t.
Proof.
  intros ->%analyze_schema_returns_report.
  split; [apply row_column_filter_report|].
  split; [intros st1 cols; apply get_columns_info_ret|apply select_columns_ordered].
Qed.

End ReportRows.

Lemma report_rows_are_the_metadata_columns_witness :
  (analyze_schema Demo.sound Demo.cfg 5 None (initial ∅)).1 = Ret Demo.public_report ∧
  row_key <$> Demo.public_report
  = table_set Demo.sound Demo.cfg None ≫=
      (λ t, (λ c, (t, COLUMN_NAME c))
              <$> select_columns Demo.sound (database Demo.cfg) (schema Demo.cfg) t) ∧
  (∀ r, r ∈ Demo.public_report →
        row_table r ∈ table_set Demo.sound Demo.cfg None ∧
        ∃ c, c ∈ select_columns Demo.sound (database Demo.cfg) (schema Demo.cfg)
                   (row_table r) ∧
             row_column r = COLUMN_NAME c) ∧
  (∀ t st1 cols,
     (get_columns_info Demo.sound Demo.cfg t st1).1 = Ret cols →
     cols = select_columns Demo.sound (database Demo.cfg) (schema Demo.cfg) t).
Proof.
  assert ((analyze_schema Demo.sound Demo.cfg 5 None (initial ∅)).1
          = Ret Demo.public_report) as Hrun by reflexivity.
  split; [exact Hrun|].
  exact (report_rows_are_the_metadata_columns Demo.sound Demo.cfg
           (initial ∅) 5 None Demo.public_report Hrun).
Defined.

Lemma report_keeps_the_position_order_witness :
  (analyze_schema Demo.sound Demo.cfg 5 None (initial ∅)).1 = Ret Demo.public_report ∧
  row_column <$> filter (λ r, row_table r = "USERS") Demo.public_report
  = mjoin (replicate (length (filter (λ t', t' = "USERS")
                                (table_set Demo.sound Demo.cfg None)))
             (COLUMN_NAME <$> select_columns Demo.sound (database Demo.cfg)
                                (schema Demo.cfg) "USERS")) ∧
  (∀ st1 cols,
     (get_columns_info Demo.sound Demo.cfg "USERS" st1).1 = Ret cols →
     cols = select_columns Demo.sound (database Demo.cfg) (schema Demo.cfg) "USERS") ∧
  ∃ cols,
    select_columns Demo.sound (database Demo.cfg) (schema Demo.cfg) "USERS"
    = descriptor <$> cols ∧
    Sorted by_position cols ∧
    cols ≡ₚ catalog_columns (wh_catalog Demo.sound (database Demo.cfg))
              (schema Demo.cfg) "USERS".
Proof.
  assert ((analyze_schema Demo.sound Demo.cfg 5 None (initial ∅)).1
          = Ret Demo.public_report) as Hrun by reflexivity.
  split; [exact Hrun|].
  exact (report_keeps_the_position_order Demo.sound Demo.cfg
           (initial ∅) 5 None Demo.public_report "USERS" Hrun).
Defined.

(** Table [USERS] holds [EMAIL] before [ID] and [EMAIL] comes first by
    name, yet the report has [ID], at position 1, before [EMAIL], at
    position 2. *)
Example users_columns_by_position :
  row_column <$> filter (λ r, row_table r = "USERS") Demo.public_report
  = ["ID"; "EMAIL"] ∧
  ¬ Sorted String.le ["ID"; "EMAIL"].
Proof.
  split; [reflexivity|].
  intros Hs. apply Sorted_inv in Hs as [_ Hhd]. by apply HdRel_inv in Hhd.
Qed.

(** * The table list given by the caller *)

Section GivenTables.

Context (wh : Warehouse) (self : Config).

(** C3: on an open session, a table list that is given and not empty is
    the list [analyze_schema] goes through, as it stands: the run ends as
    the loop over exactly these names ends, whether or not the catalog
    knows them, and the statement that lists the tables of the schema is
    never executed.  With no list (or an empty one) the run ends as the
    loop over what [get_tables] returns. *)
Theorem table_list_is_taken_as_given sid st n :
  live sid st →
  (∀ t tables,
     let r := analyze_schema wh self n (Some (t :: tables)) st in
     r.1 = tables_outcome wh self n (t :: tables) ∧
     ∃ evs, trace r.2 = trace st ++ evs ∧ Forall (λ e, lists_tables e = false) evs) ∧
  (∀ tf tables,
     tf = None ∨ tf = Some [] →
     (get_tables wh self st).1 = Ret tables →
     (analyze_schema wh self n tf st).1 = tables_outcome wh self n tables).
Proof.
  intros Hl. split.
  - intros t tables r. subst r. split.
    + by destruct (analyze_schema_live wh self sid n (Some (t :: tables)) st Hl).
    + destruct (Emits_analyze_schema wh self n (Some (t :: tables)) st)
        as (evs & Ht & Hall).
      exists evs. split; [done|]. eapply Forall_impl; [exact Hall|]. auto.
  - intros tf tables Htf Hg.
    destruct (analyze_schema_live wh self sid n tf st Hl) as [-> _].
    rewrite (get_tables_live wh self sid) in Hg by done.
    unfold analysis_outcome.
    assert (truthy tf = false) as -> by (by destruct Htf as [-> | ->]).
    destruct (wh_fault wh _); by simplify_eq.
Qed.

End GivenTables.

Lemma table_list_is_taken_as_given_witness :
  live 0 Demo.connected ∧
  (∀ t tables,
     let r := analyze_schema Demo.sound Demo.cfg 5 (Some (t :: tables)) Demo.connected in
     r.1 = tables_outcome Demo.sound Demo.cfg 5 (t :: tables) ∧
     ∃ evs, trace r.2 = trace Demo.connected ++ evs ∧
            Forall (λ e, lists_tables e = false) evs) ∧
  (∀ tf tables,
     tf = None ∨ tf = Some [] →
     (get_tables Demo.sound Demo.cfg Demo.connected).1 = Ret tables →
     (analyze_schema Demo.sound Demo.cfg 5 tf Demo.connected).1
     = tables_outcome Demo.sound Demo.cfg 5 tables).
Proof.
  assert (live 0 Demo.connected) as Hl by (split; reflexivity).
  split; [exact Hl|].
  exact (table_list_is_taken_as_given Demo.sound Demo.cfg 0 Demo.connected 5 Hl).
Defined.

(** A list naming [USERS] twice and a table the catalog does not hold:
    [USERS] is reported twice, the unknown table adds nothing, and no
    statement but the three metadata statements and the sample statements
    is executed. *)
Example given_list_with_repeats_and_unknown :
  let r := analyze_schema Demo.sound Demo.cfg 5
             (Some ["USERS"; "GHOST"; "USERS"]) Demo.connected in
  row_key <$> default [] (match r.1 with Ret df => Some df | Raise _ => None end)
  = [("USERS", "ID"); ("USERS", "EMAIL"); ("USERS", "ID"); ("USERS", "EMAIL")] ∧
  filter (λ e, is_execute e = true) (trace r.2)
  = [EvExecute 0 (SelectColumns "DB" "PUBLIC" "USERS");
     EvExecute 0 (SelectSample "DB" "PUBLIC" "USERS" "ID" 5);
     EvExecute 0 (SelectSample "DB" "PUBLIC" "USERS" "EMAIL" 5);
     EvExecute 0 (SelectColumns "DB" "PUBLIC" "GHOST");
     EvExecute 0 (SelectColumns "DB" "PUBLIC" "USERS");
     EvExecute 0 (SelectSample "DB" "PUBLIC" "USERS" "ID" 5);
     EvExecute 0 (SelectSample "DB" "PUBLIC" "USERS" "EMAIL" 5)].
Proof. split; reflexivity. Qed.

(** * Sample values *)

Section Samples.

Context (wh : Warehouse) (self : Config).




(** Every row of a report is the row of a column returned for one of the
    tables. *)
Lemma elem_of_report n tables r :
  r ∈ report wh self n tables ↔
  ∃ t c, t ∈ tables ∧ c ∈ select_columns wh (database self) (schema self) t ∧
         r = report_row wh self n t c.
Proof.
  unfold report, table_report. rewrite list_elem_of_bind. split.
  - intros (t & (c & -> & Hc)%list_elem_of_fmap & Ht). eauto.
  - intros (t & c & Ht & Hc & ->). exists t. split; [|done].
    apply list_elem_of_fmap. eauto.
Qed.




End Samples.




(** At a sample size of 5 the same row shows the failure. *)
Example failed_sample_at_five :
  (analyze_schema (Demo.wh None Demo.note_fault) Demo.cfg 5 (Some ["ORDERS"])
     Demo.connected).1
  = Ret [Demo.row "ORDERS" "ORDER_ID" "NUMBER" "NO" "10, 11, 12";
         Demo.row "ORDERS" "AMOUNT" "NUMBER" "YES" EmptyString;
         Demo.row "ORDERS" "NOTE" "VARIANT" "YES" "エラー: SQL compilation error"].
Proof. reflexivity. Qed.

(** * Export *)

Section CsvExport.

Context (pd : Pandas).


End CsvExport.

(** The file written for the report of schema [PUBLIC], a file being
    there already: mark, header, five lines. *)
Example export_public_report :
  files (export_to_csv Demo.pandas Demo.public_report csv_path
           {| connection := None; sessions := [];
              files := {[ csv_path := "stale" ]}; trace := [] |}).2 !! csv_path
  = Some (BOM +:+ "テーブル名,カラム名,データ型,NULL許可,サンプル値" +:+ Py.nl
          +:+ "ORDERS,ORDER_ID,NUMBER,NO," +:+ Demo.dquote +:+ "10, 11, 12"
          +:+ Demo.dquote +:+ Py.nl
          +:+ "ORDERS,AMOUNT,NUMBER,YES," +:+ Py.nl
          +:+ "ORDERS,NOTE,VARIANT,YES," +:+ Py.nl
          +:+ "USERS,ID,NUMBER,NO," +:+ Demo.dquote +:+ "1, 2" +:+ Demo.dquote +:+ Py.nl
          +:+ "USERS,EMAIL,VARCHAR,YES,a@x.com" +:+ Py.nl).
Proof. reflexivity. Qed.

(** * Failures *)

Section Failures.

Context (wh : Warehouse) (pd : Pandas) (self : Config).


Lemma disconnect_twice s :
  let s1 := (disconnect s).2 in
  (disconnect s1).1 = Ret tt ∧
  connection (disconnect s1).2 = connection s1 ∧
  sessions (disconnect s1).2 = sessions s1 ∧
  files (disconnect s1).2 = files s1.
Proof.
  simpl. rewrite (disconnect_eq s).
  destruct (connection s) as [sid|] eqn:Hs; simpl.
  - by rewrite list_insert_insert_eq.
  - by rewrite disconnect_eq, Hs.
Qed.

(** C9: when the [try] block of [main] raises, from a state in which no
    session is open, [main] still ends normally; the line naming the
    exception is printed; at the end every session is closed, the one the
    run opened among them; and the files are what they were.
    [disconnect] returns at once and changes nothing when
    [self.connection] is [None]; called a second time (it closes the
    closed session again and prints its line again) it raises nothing and
    leaves the connection, the sessions and the files as the first call
    left them. *)
Theorem fatal_failure_is_surfaced_and_contained n tf st e :
  all_closed st →
  (run_body wh pd self n tf st).1 = Raise e →
  let r := run wh pd self n tf st in
  r.1 = Ret tt ∧
  EvPrint (error_line e) ∈ trace r.2 ∧
  all_closed r.2 ∧
  files r.2 = files st ∧
  (∀ s, connection s = None → disconnect s = (Ret tt, s)) ∧
  (∀ s, let s1 := (disconnect s).2 in
        (disconnect s1).1 = Ret tt ∧
        connection (disconnect s1).2 = connection s1 ∧
        sessions (disconnect s1).2 = sessions s1 ∧
        files (disconnect s1).2 = files s1).
Proof.
  intros Hall Hraise r. subst r.
  destruct (run_body_facts wh pd self n tf st) as (Hb & _).
  rewrite Hraise in Hb.
  assert (run_outcome wh self n tf = Raise e) as Hout.
  { destruct (run_outcome wh self n tf); by simplify_eq. }
  destruct (run_facts wh pd self n tf st) as (Hr & Hf & Hc & Hp).
  rewrite Hout in Hf.
  split; [done|]. split; [by apply Hp|]. split; [by apply Hc|]. split; [done|].
  split.
  - intros s Hs. by rewrite disconnect_eq, Hs.
  - apply disconnect_twice.
Qed.

(** C10: called while [self.connection] is [None], [analyze_schema] does
    what [connect] followed by [analyze_schema] does.  When the login is
    accepted, the first thing it adds to the trace is the login, before any
    statement; it then holds an open session and ends as it does on an
    open session: with the report, when no catalog statement fails. *)
Theorem analyze_schema_connects_itself st n tf :
  connection st = None →
  analyze_schema wh self n tf st
  = (connect wh self >> analyze_schema wh self n tf) st ∧
  (wh_login wh self = None →
   let r := analyze_schema wh self n tf st in
   r.1 = analysis_outcome wh self n tf ∧
   live (length (sessions st)) r.2 ∧
   (∃ evs, trace r.2 = trace st ++ EvLogin true :: evs) ∧
   (catalog_sound wh → r.1 = Ret (report wh self n (table_set wh self tf)))).
Proof.
  intros Hc. split; [by apply analyze_schema_unconnected|].
  intros Hin r. subst r. rewrite analyze_schema_unconnected by done.
  pose proof (connect_live wh self st Hin) as Hl.
  pose proof (connect_accepted wh self st Hin) as Hconn.
  rewrite Hconn in Hl. simpl in Hl.
  set (st1 := {| connection := _ |}) in *.
  assert ((connect wh self >> analyze_schema wh self n tf) st
          = analyze_schema wh self n tf st1) as ->.
  { unfold bind. by rewrite Hconn. }
  destruct (analyze_schema_live wh self _ n tf st1 Hl) as [Hr Hq].
  split; [done|]. split; [by eapply only_trace_live|].
  split.
  - destruct Hq as (_ & _ & _ & evs & ->). simpl.
    rewrite <- (assoc_L (++)). simpl. eauto.
  - intros Hs. by rewrite Hr, analysis_outcome_sound.
Qed.

End Failures.



Example unknown_table_run :
  (get_columns_info Demo.sound Demo.cfg "GHOST" Demo.connected).1 = Ret [] ∧
  let r := run Demo.sound Demo.pandas Demo.cfg 5 (Some ["GHOST"]) (initial ∅) in
  r.1 = Ret tt ∧ files r.2 !! csv_path = Some (BOM +:+ Py.nl).
Proof. repeat split. Qed.

Lemma fatal_failure_is_surfaced_and_contained_witness :
  all_closed (initial ∅) ∧
  (run_body (Demo.wh None Demo.orders_fault) Demo.pandas Demo.cfg 5 None (initial ∅)).1
  = Raise (Exn QueryError "Network is unreachable") ∧
  let r := run (Demo.wh None Demo.orders_fault) Demo.pandas Demo.cfg 5 None (initial ∅) in
  r.1 = Ret tt ∧
  EvPrint (error_line (Exn QueryError "Network is unreachable")) ∈ trace r.2 ∧
  all_closed r.2 ∧
  files r.2 = files (initial ∅) ∧
  (∀ s, connection s = None → disconnect s = (Ret tt, s)) ∧
  (∀ s, let s1 := (disconnect s).2 in
        (disconnect s1).1 = Ret tt ∧
        connection (disconnect s1).2 = connection s1 ∧
        sessions (disconnect s1).2 = sessions s1 ∧
        files (disconnect s1).2 = files s1).
Proof.
  assert (all_closed (initial ∅)) as Hall by constructor.
  split; [exact Hall|]. split; [reflexivity|].
  exact (fatal_failure_is_surfaced_and_contained
           (Demo.wh None Demo.orders_fault) Demo.pandas Demo.cfg 5 None (initial ∅)
           (Exn QueryError "Network is unreachable") Hall eq_refl).
Defined.

(** A refused login: the failure is printed by [connect] and again by
    [main], no session was opened, [disconnect] does nothing, no file is
    written. *)
Example refused_login_run :
  let r := run (Demo.wh (Some "Incorrect username or password") Demo.no_fault)
             Demo.pandas Demo.cfg 5 None (initial ∅) in
  r.1 = Ret tt ∧ files r.2 = ∅ ∧ sessions r.2 = [] ∧
  trace r.2 = [EvLogin false;
               EvPrint "✗ 接続エラー: Incorrect username or password";
               EvPrint (error_line (Exn ConnectionError "Incorrect username or password"))].
Proof. repeat split. Qed.

(** A metadata statement fails half way: the session is closed after the
    failure is printed, and no file is written. *)
Example failed_metadata_run :
  let r := run (Demo.wh None Demo.orders_fault) Demo.pandas Demo.cfg 5 None (initial ∅) in
  r.1 = Ret tt ∧ files r.2 = ∅ ∧ sessions r.2 = [false] ∧
  drop 6 (trace r.2)
  = [EvPrint (error_line (Exn QueryError "Network is unreachable"));
     EvClose 0; EvPrint "✓ Snowflakeから切断しました"].
Proof. repeat split. Qed.

Lemma analyze_schema_connects_itself_witness :
  connection (initial ∅) = None ∧
  analyze_schema Demo.sound Demo.cfg 5 None (initial ∅)
  = (connect Demo.sound Demo.cfg >> analyze_schema Demo.sound Demo.cfg 5 None) (initial ∅) ∧
  (wh_login Demo.sound Demo.cfg = None →
   let r := analyze_schema Demo.sound Demo.cfg 5 None (initial ∅) in
   r.1 = analysis_outcome Demo.sound Demo.cfg 5 None ∧
   live (length (sessions (initial ∅))) r.2 ∧
   (∃ evs, trace r.2 = trace (initial ∅) ++ EvLogin true :: evs) ∧
   (catalog_sound Demo.sound →
    r.1 = Ret (report Demo.sound Demo.cfg 5 (table_set Demo.sound Demo.cfg None)))).
Proof.
  split; [reflexivity|].
  exact (analyze_schema_connects_itself Demo.sound Demo.cfg (initial ∅) 5 None eq_refl).
Defined.

(** [main] on the concrete warehouse: the report of schema [PUBLIC] is
    what ends up in the output file, and the session is closed. *)
Example main_run :
  let r := main Demo.sound Demo.pandas Demo.cfg (initial ∅) in
  r.1 = Ret tt ∧ sessions r.2 = [false] ∧
  files r.2 !! csv_path = Some (BOM +:+ to_csv Demo.pandas Demo.public_report).
Proof. repeat split. Qed.

(** Once connected and disconnected, [self.connection] still refers to the
    closed session: [analyze_schema] does not connect again, and its first
    statement fails. *)
Example analyze_schema_after_disconnect :
  let st := (run Demo.sound Demo.pandas Demo.cfg 5 None (initial ∅)).2 in
  connection st = Some 0%nat ∧
  (analyze_schema Demo.sound Demo.cfg 5 None st).1
  = Raise (Exn QueryError "Connection is closed").
Proof. repeat split. Qed.

(** * Further properties of the detector *)

(** ** Statements executed on an open session *)

Lemma executed_app evs1 evs2 : executed (evs1 ++ evs2) = executed evs1 ++ executed evs2.
Proof. apply omap_app. Qed.

Lemma Runs_ret {A} sid (a : A) : Runs sid (ret a) (Ret a) [].
Proof.
  intros st _. split; [done|]. split; [apply Quiet_ret|].
  exists []. by rewrite app_nil_r.
Qed.

Lemma Runs_print sid line : Runs sid (print line) (Ret tt) [].
Proof.
  intros st _. split; [done|]. split; [apply Quiet_print|]. by exists [EvPrint line].
Qed.

Lemma Runs_get_connection sid : Runs sid get_connection (Ret (Some sid)) [].
Proof.
  intros st [Hc _]. unfold get_connection; simpl. rewrite Hc.
  split; [done|]. split; [done|]. exists []. by rewrite app_nil_r.
Qed.

Lemma Runs_bind {A B} sid (m : M A) (k : A → M B) a o qs1 qs2 :
  Runs sid m (Ret a) qs1 → Runs sid (k a) o qs2 → Runs sid (bind m k) o (qs1 ++ qs2).
Proof.
  intros Hm Hk st Hl. unfold bind.
  destruct (Hm st Hl) as (Hr & Hq & evs1 & Ht1 & He1).
  destruct (m st) as [r st1]; simpl in *; subst r.
  destruct (Hk st1 (only_trace_live _ _ _ Hq Hl)) as (Hr' & Hq' & evs2 & Ht2 & He2).
  split; [done|]. split; [by etrans|].
  exists (evs1 ++ evs2). split; [by rewrite Ht2, Ht1, (assoc_L (++))|].
  by rewrite executed_app, He1, He2.
Qed.

Lemma Runs_raise {A B} sid (m : M A) (k : A → M B) e qs :
  Runs sid m (Raise e) qs → Runs sid (bind m k) (Raise e) qs.
Proof.
  intros Hm st Hl. unfold bind. destruct (Hm st Hl) as (Hr & Hq & Hev).
  by destruct (m st) as [r st1]; simpl in *; subst r.
Qed.

Lemma Runs_bind_ret {A} sid (m : M A) o qs :
  Runs sid m o qs → Runs sid (bind m ret) o qs.
Proof.
  intros Hm st Hl. unfold bind. destruct (Hm st Hl) as (Hr & Hq & Hev).
  by destruct (m st) as [[a|e] st1]; simpl in *; subst o.
Qed.

Section RunsFacts.

Context (wh : Warehouse) (self : Config).

Lemma Runs_cursor sid : Runs sid cursor (Ret sid) [].
Proof.
  intros st Hl. rewrite (cursor_live sid) by done.
  split; [done|]. split; [done|]. exists []. by rewrite app_nil_r.
Qed.

Lemma Runs_execute sid q :
  Runs sid (execute wh sid q)
    (match wh_fault wh q with
     | Some msg => Raise (Exn QueryError msg)
     | None => Ret tt
     end) [q].
Proof.
  intros st Hl. split; [|split; [apply Quiet_execute|]].
  - unfold execute, bind, emit. by destruct (wh_fault wh q).
  - exists [EvExecute sid q]. split; [|done].
    unfold execute, bind, emit. by destruct (wh_fault wh q).
Qed.

Lemma Runs_get_tables sid :
  Runs sid (get_tables wh self)
    (match wh_fault wh (SelectTables (database self) (schema self)) with
     | Some msg => Raise (Exn QueryError msg)
     | None => Ret (select_tables wh (database self) (schema self))
     end) [SelectTables (database self) (schema self)].
Proof.
  unfold get_tables.
  eapply (Runs_bind sid _ _ sid _ [] [_]); [apply Runs_cursor|].
  pose proof (Runs_execute sid (SelectTables (database self) (schema self))) as He.
  destruct (wh_fault wh _).
  - by apply Runs_raise.
  - eapply (Runs_bind sid _ _ tt _ [_] []); [done|apply Runs_ret].
Qed.

Lemma Runs_get_columns_info sid t :
  Runs sid (get_columns_info wh self t)
    (match wh_fault wh (SelectColumns (database self) (schema self) t) with
     | Some msg => Raise (Exn QueryError msg)
     | None => Ret (select_columns wh (database self) (schema self) t)
     end) [SelectColumns (database self) (schema self) t].
Proof.
  unfold get_columns_info.
  eapply (Runs_bind sid _ _ sid _ [] [_]); [apply Runs_cursor|].
  pose proof (Runs_execute sid (SelectColumns (database self) (schema self) t)) as He.
  destruct (wh_fault wh _).
  - by apply Runs_raise.
  - eapply (Runs_bind sid _ _ tt _ [_] []); [done|apply Runs_ret].
Qed.

(** The sample statement is executed once, whether it fails or not. *)
Lemma Runs_get_sample_values sid t c n :
  Runs sid (get_sample_values wh self t c n)
    (Ret (sample_values wh self t c n))
    [SelectSample (database self) (schema self) t c n].
Proof.
  intros st Hl. split; [by apply (get_sample_values_live wh self sid)|].
  split; [apply Quiet_get_sample_values|].
  exists [EvExecute sid (SelectSample (database self) (schema self) t c n)].
  split; [|done].
  unfold get_sample_values, try_except, bind. rewrite (cursor_live sid) by done.
  unfold execute, bind, emit, raise, ret; simpl. by destruct (wh_fault wh _).
Qed.

Lemma Runs_analyze_column sid n t c acc :
  Runs sid (analyze_column wh self n t c acc)
    (Ret (acc ++ [report_row wh self n t c]))
    [SelectSample (database self) (schema self) t (COLUMN_NAME c) n].
Proof.
  unfold analyze_column.
  eapply (Runs_bind sid _ _ _ _ [_] []); [apply Runs_get_sample_values|].
  eapply (Runs_bind sid _ _ tt _ [] []); [apply Runs_print|apply Runs_ret].
Qed.

Lemma Runs_analyze_columns sid n t cols : ∀ acc,
  Runs sid (for_each cols (analyze_column wh self n t) acc)
    (Ret (acc ++ (report_row wh self n t <$> cols)))
    ((λ c, SelectSample (database self) (schema self) t (COLUMN_NAME c) n) <$> cols).
Proof.
  induction cols as [|c cols IH]; intros acc; simpl.
  - rewrite app_nil_r. apply Runs_ret.
  - eapply (Runs_bind sid _ _ _ _ [_]); [apply Runs_analyze_column|].
    specialize (IH (acc ++ [report_row wh self n t c])).
    by rewrite <- (assoc_L (++)) in IH.
Qed.

Lemma Runs_analyze_table sid n t acc :
  Runs sid (analyze_table wh self n t acc)
    (match wh_fault wh (SelectColumns (database self) (schema self) t) with
     | Some msg => Raise (Exn QueryError msg)
     | None => Ret (acc ++ table_report wh self n t)
     end)
    (match wh_fault wh (SelectColumns (database self) (schema self) t) with
     | Some _ => [SelectColumns (database self) (schema self) t]
     | None => table_statements wh self n t
     end).
Proof.
  unfold analyze_table.
  pose proof (Runs_get_columns_info sid t) as Hc.
  destruct (wh_fault wh _).
  - eapply (Runs_bind sid _ _ tt _ [] [_]); [apply Runs_print|]. by apply Runs_raise.
  - eapply (Runs_bind sid _ _ tt _ [] (_ :: _)); [apply Runs_print|].
    eapply (Runs_bind sid _ _ _ _ [_]); [exact Hc|]. apply Runs_analyze_columns.
Qed.

Lemma Runs_analyze_tables sid n tables : ∀ acc,
  Runs sid (for_each tables (analyze_table wh self n) acc)
    (match columns_fault wh self tables with
     | Some msg => Raise (Exn QueryError msg)
     | None => Ret (acc ++ report wh self n tables)
     end)
    (tables_statements wh self n tables).
Proof.
  induction tables as [|t tables IH]; intros acc; simpl.
  - rewrite app_nil_r. apply Runs_ret.
  - pose proof (Runs_analyze_table sid n t acc) as Ht.
    destruct (wh_fault wh _).
    + by apply Runs_raise.
    + eapply (Runs_bind sid _ _ _ _ (table_statements wh self n t)
                (tables_statements wh self n tables)); [exact Ht|].
      specialize (IH (acc ++ table_report wh self n t)).
      destruct (columns_fault wh self tables); [done|].
      unfold report in *; simpl. by rewrite (assoc_L (++)).
Qed.

Lemma Runs_analyze_schema sid n tf :
  Runs sid (analyze_schema wh self n tf)
    (analysis_outcome wh self n tf) (analysis_statements wh self n tf).
Proof.
  unfold analyze_schema, analysis_outcome, analysis_statements, tables_outcome.
  eapply (Runs_bind sid _ _ _ _ []); [apply Runs_get_connection|]; simpl.
  eapply (Runs_bind sid _ _ tt _ []); [apply Runs_ret|].
  destruct (truthy tf).
  - eapply (Runs_bind sid _ _ _ _ []); [apply Runs_ret|].
    eapply (Runs_bind sid _ _ tt _ []); [apply Runs_print|].
    apply Runs_bind_ret. apply (Runs_analyze_tables sid n _ []).
  - pose proof (Runs_get_tables sid) as Hg.
    destruct (wh_fault wh (SelectTables _ _)).
    + by apply Runs_raise.
    + eapply (Runs_bind sid _ _ _ _ [_]); [exact Hg|].
      eapply (Runs_bind sid _ _ tt _ []); [apply Runs_print|].
      apply Runs_bind_ret. apply (Runs_analyze_tables sid n _ []).
Qed.

End RunsFacts.

Section StatementsOfARun.

Context (wh : Warehouse) (self : Config).

Lemma tables_statements_sound n tables :
  (∀ t, t ∈ tables →
        wh_fault wh (SelectColumns (database self) (schema self) t) = None) →
  tables_statements wh self n tables = tables ≫= table_statements wh self n.
Proof.
  induction tables as [|t tables IH]; intros Hok; [done|]; simpl.
  rewrite (Hok t) by apply list_elem_of_here.
  rewrite IH; [done|]. intros t' Ht'. apply Hok. by apply list_elem_of_further.
Qed.

Lemma tables_statements_failing n pre t post msg :
  (∀ t', t' ∈ pre →
         wh_fault wh (SelectColumns (database self) (schema self) t') = None) →
  wh_fault wh (SelectColumns (database self) (schema self) t) = Some msg →
  tables_statements wh self n (pre ++ t :: post)
  = (pre ≫= table_statements wh self n)
    ++ [SelectColumns (database self) (schema self) t] ∧
  columns_fault wh self (pre ++ t :: post) = Some msg.
Proof.
  intros Hok Hf. induction pre as [|t' pre IH]; simpl.
  - by rewrite Hf.
  - rewrite (Hok t') by apply list_elem_of_here.
    destruct IH as [-> ->].
    { intros t'' Ht''. apply Hok. by apply list_elem_of_further. }
    split; [|done]. f_equal. by rewrite <- (assoc_L (++)).
Qed.

Lemma length_table_statements n tables :
  length (tables ≫= table_statements wh self n)
  = (length tables + length (report wh self n tables))%nat.
Proof.
  unfold report. induction tables as [|t tables IH]; [done|].
  rewrite !bind_cons, !length_app, IH. unfold table_statements, sample_statements,
    table_report. simpl. rewrite !length_fmap. lia.
Qed.

(** X2: on an open session and when no catalog statement fails,
    [analyze_schema] executes the statement that lists the tables (unless
    a table list is given), then for each table in turn its metadata
    statement followed by one sample statement for each column returned,
    failing or not, and nothing else: one statement, one more per table,
    one more per row of the report. *)
Theorem analysis_executes_one_statement_per_table_and_column sid st n tf :
  live sid st → catalog_sound wh →
  ∃ evs,
    trace (analyze_schema wh self n tf st).2 = trace st ++ evs ∧
    executed evs
    = (if truthy tf then [] else [SelectTables (database self) (schema self)])
      ++ (table_set wh self tf ≫= table_statements wh self n) ∧
    length (executed evs)
    = ((if truthy tf then 0 else 1) + length (table_set wh self tf)
       + length (report wh self n (table_set wh self tf)))%nat.
Proof.
  intros Hl Hs.
  destruct (Runs_analyze_schema wh self sid n tf st Hl) as (_ & _ & evs & Ht & He).
  assert (executed evs
          = (if truthy tf then [] else [SelectTables (database self) (schema self)])
            ++ (table_set wh self tf ≫= table_statements wh self n)) as Hex.
  { rewrite He. unfold analysis_statements, table_set.
    destruct (truthy tf).
    - apply tables_statements_sound. intros t _. by apply (Hs (SelectColumns _ _ _)).
    - rewrite (Hs (SelectTables _ _)) by done. simpl. f_equal.
      apply tables_statements_sound. intros t _. by apply (Hs (SelectColumns _ _ _)). }
  exists evs. split; [done|]. split; [done|].
  rewrite Hex, length_app, length_table_statements. by destruct (truthy tf).
Qed.

(** X3: on an open session, when the metadata statement of a table of the
    given list fails and those of the tables before it do not,
    [analyze_schema] raises that failure: the rows gathered so far are not
    returned, and the failing statement is the last one executed, so that
    no table after it is looked at. *)
Theorem analysis_stops_at_the_first_failing_table sid st n pre t post msg :
  live sid st →
  (∀ t', t' ∈ pre →
         wh_fault wh (SelectColumns (database self) (schema self) t') = None) →
  wh_fault wh (SelectColumns (database self) (schema self) t) = Some msg →
  let r := analyze_schema wh self n (Some (pre ++ t :: post)) st in
  r.1 = Raise (Exn QueryError msg) ∧
  ∃ evs,
    trace r.2 = trace st ++ evs ∧
    executed evs
    = (pre ≫= table_statements wh self n)
      ++ [SelectColumns (database self) (schema self) t].
Proof.
  intros Hl Hok Hf r. subst r.
  destruct (Runs_analyze_schema wh self sid n (Some (pre ++ t :: post)) st Hl)
    as (Hr & _ & evs & Ht & He).
  destruct (tables_statements_failing n pre t post msg Hok Hf) as [Hst Hcf].
  assert (truthy (Some (pre ++ t :: post)) = true) as Htr by (by destruct pre).
  unfold analysis_outcome, analysis_statements, tables_outcome in *.
  rewrite Htr in *. simpl default in *. rewrite Hcf in Hr. rewrite Hst in He.
  split; [done|]. by exists evs.
Qed.

End StatementsOfARun.

Lemma analysis_executes_one_statement_per_table_and_column_witness :
  live 0 Demo.connected ∧ catalog_sound (Demo.wh None Demo.note_fault) ∧
  ∃ evs,
    trace (analyze_schema (Demo.wh None Demo.note_fault) Demo.cfg 5 None
             Demo.connected).2 = trace Demo.connected ++ evs ∧
    executed evs
    = (if truthy (@None (list string)) then []
       else [SelectTables (database Demo.cfg) (schema Demo.cfg)])
      ++ (table_set (Demo.wh None Demo.note_fault) Demo.cfg None
            ≫= table_statements (Demo.wh None Demo.note_fault) Demo.cfg 5) ∧
    length (executed evs)
    = ((if truthy (@None (list string)) then 0 else 1)
       + length (table_set (Demo.wh None Demo.note_fault) Demo.cfg None)
       + length (report (Demo.wh None Demo.note_fault) Demo.cfg 5
                   (table_set (Demo.wh None Demo.note_fault) Demo.cfg None)))%nat.
Proof.
  assert (live 0 Demo.connected) as Hl by (split; reflexivity).
  assert (catalog_sound (Demo.wh None Demo.note_fault)) as Hs.
  { intros q Hq. destruct q; [reflexivity..|discriminate]. }
  split; [exact Hl|]. split; [exact Hs|].
  exact (analysis_executes_one_statement_per_table_and_column
           (Demo.wh None Demo.note_fault) Demo.cfg 0 Demo.connected 5 None Hl Hs).
Defined.

(** Schema [PUBLIC]: one statement for the list, two for the tables, five
    for the columns, the failing one for [NOTE] among them. *)
Example public_statements :
  executed (trace (analyze_schema (Demo.wh None Demo.note_fault) Demo.cfg 5 None
                     Demo.connected).2)
  = [SelectTables "DB" "PUBLIC";
     SelectColumns "DB" "PUBLIC" "ORDERS";
     SelectSample "DB" "PUBLIC" "ORDERS" "ORDER_ID" 5;
     SelectSample "DB" "PUBLIC" "ORDERS" "AMOUNT" 5;
     SelectSample "DB" "PUBLIC" "ORDERS" "NOTE" 5;
     SelectColumns "DB" "PUBLIC" "USERS";
     SelectSample "DB" "PUBLIC" "USERS" "ID" 5;
     SelectSample "DB" "PUBLIC" "USERS" "EMAIL" 5].
Proof. reflexivity. Qed.

Lemma analysis_stops_at_the_first_failing_table_witness :
  live 0 Demo.connected ∧
  (∀ t', t' ∈ ["USERS"] →
         wh_fault (Demo.wh None Demo.orders_fault)
           (SelectColumns (database Demo.cfg) (schema Demo.cfg) t') = None) ∧
  wh_fault (Demo.wh None Demo.orders_fault)
    (SelectColumns (database Demo.cfg) (schema Demo.cfg) "ORDERS")
  = Some "Network is unreachable" ∧
  let r := analyze_schema (Demo.wh None Demo.orders_fault) Demo.cfg 5
             (Some (["USERS"] ++ "ORDERS" :: ["GHOST"])) Demo.connected in
  r.1 = Raise (Exn QueryError "Network is unreachable") ∧
  ∃ evs,
    trace r.2 = trace Demo.connected ++ evs ∧
    executed evs
    = (["USERS"] ≫= table_statements (Demo.wh None Demo.orders_fault) Demo.cfg 5)
      ++ [SelectColumns (database Demo.cfg) (schema Demo.cfg) "ORDERS"].
Proof.
  assert (live 0 Demo.connected) as Hl by (split; reflexivity).
  assert (∀ t', t' ∈ ["USERS"] →
                wh_fault (Demo.wh None Demo.orders_fault)
                  (SelectColumns (database Demo.cfg) (schema Demo.cfg) t') = None) as Hok.
  { intros t' Ht'. apply list_elem_of_singleton in Ht'. subst t'. reflexivity. }
  split; [exact Hl|]. split; [exact Hok|]. split; [reflexivity|].
  exact (analysis_stops_at_the_first_failing_table
           (Demo.wh None Demo.orders_fault) Demo.cfg 0 Demo.connected 5
           ["USERS"] "ORDERS" ["GHOST"] "Network is unreachable" Hl Hok eq_refl).
Defined.

(** ** The connection *)

Section Connection.

Context (wh : Warehouse) (self : Config).

(** X7: on a detector that never connected, [get_tables] and
    [get_columns_info] raise the attribute error of [None] without
    executing anything, where [analyze_schema] would have connected; and
    [get_sample_values] turns the same error into its one-element list.
    The state is left as it was. *)
Theorem queries_need_a_connection st t c n :
  connection st = None →
  get_tables wh self st
  = (Raise (Exn AttributeError "'NoneType' object has no attribute 'cursor'"), st) ∧
  get_columns_info wh self t st
  = (Raise (Exn AttributeError "'NoneType' object has no attribute 'cursor'"), st) ∧
  get_sample_values wh self t c n st
  = (Ret [Py.VStr "エラー: 'NoneType' object has no attribute 'cursor'"], st).
Proof.
  intros Hc.
  assert (cursor st
          = (Raise (Exn AttributeError "'NoneType' object has no attribute 'cursor'"), st))
    as Hcur.
  { unfold cursor, bind, get_connection. by rewrite Hc. }
  unfold get_tables, get_columns_info, get_sample_values, try_except, bind.
  by rewrite Hcur.
Qed.


End Connection.

Lemma queries_need_a_connection_witness :
  connection (initial ∅) = None ∧
  get_tables Demo.sound Demo.cfg (initial ∅)
  = (Raise (Exn AttributeError "'NoneType' object has no attribute 'cursor'"),
     initial ∅) ∧
  get_columns_info Demo.sound Demo.cfg "USERS" (initial ∅)
  = (Raise (Exn AttributeError "'NoneType' object has no attribute 'cursor'"),
     initial ∅) ∧
  get_sample_values Demo.sound Demo.cfg "USERS" "ID" 5 (initial ∅)
  = (Ret [Py.VStr "エラー: 'NoneType' object has no attribute 'cursor'"], initial ∅).
Proof.
  split; [reflexivity|].
  exact (queries_need_a_connection Demo.sound Demo.cfg (initial ∅) "USERS" "ID" 5 eq_refl).
Defined.


(** ** What [analyze_schema] leaves alone *)

Section OnlyReads.

Context (wh : Warehouse) (self : Config).

Section ReadEvents.

(** [P] holds of every printed line and every executed statement. *)
Context (P : event → Prop) (HP : ∀ e, reads e = true → P e).

Local Hint Extern 1 (P _) => (apply HP; reflexivity) : emits.
Local Hint Resolve Emits_cursor Emits_execute : emits.

Lemma Reads_get_tables : Emits P (get_tables wh self).
Proof. unfold get_tables. auto with emits. Qed.

Lemma Reads_get_columns_info t : Emits P (get_columns_info wh self t).
Proof. unfold get_columns_info. auto with emits. Qed.

Lemma Reads_get_sample_values t c n : Emits P (get_sample_values wh self t c n).
Proof. unfold get_sample_values. auto 6 with emits. Qed.

Local Hint Resolve Reads_get_tables Reads_get_columns_info
  Reads_get_sample_values : emits.

Lemma Reads_analyze_column n t c acc : Emits P (analyze_column wh self n t c acc).
Proof. unfold analyze_column, print. auto 6 with emits. Qed.

Local Hint Resolve Reads_analyze_column : emits.

Lemma Reads_analyze_table n t acc : Emits P (analyze_table wh self n t acc).
Proof. unfold analyze_table, print. auto 6 with emits. Qed.

Local Hint Resolve Reads_analyze_table : emits.

(** [analyze_schema] from the point where the connection is there. *)
Lemma Reads_analysis n tf :
  Emits P
    (let* tables :=
       (if truthy tf then ret (default [] tf) else get_tables wh self) in
     print (Py.nl +:+ "分析対象テーブル数: " +:+ pretty (length tables)) >>
     let* results := for_each tables (analyze_table wh self n) [] in
     ret results).
Proof. unfold print. destruct (truthy tf); auto 8 with emits. Qed.

End ReadEvents.

Lemma Quiet_analysis n tf :
  Quiet
    (let* tables :=
       (if truthy tf then ret (default [] tf) else get_tables wh self) in
     print (Py.nl +:+ "分析対象テーブル数: " +:+ pretty (length tables)) >>
     let* results := for_each tables (analyze_table wh self n) [] in
     ret results).
Proof.
  destruct (truthy tf);
    auto 8 using Quiet_get_tables, Quiet_analyze_table with quiet.
Qed.

(** With [self.connection] set, [analyze_schema] skips [connect]. *)
Lemma analyze_schema_connected st n tf sid :
  connection st = Some sid →
  analyze_schema wh self n tf st
  = (let* tables :=
       (if truthy tf then ret (default [] tf) else get_tables wh self) in
     print (Py.nl +:+ "分析対象テーブル数: " +:+ pretty (length tables)) >>
     let* results := for_each tables (analyze_table wh self n) [] in
     ret results) st.
Proof. intros Hc. unfold analyze_schema, bind, get_connection. by rewrite Hc. Qed.

Lemma analyze_schema_connected_reads st n tf sid :
  connection st = Some sid →
  only_trace st (analyze_schema wh self n tf st).2 ∧
  ∃ evs, trace (analyze_schema wh self n tf st).2 = trace st ++ evs ∧
         Forall (λ e, reads e = true) evs.
Proof.
  intros Hc. rewrite (analyze_schema_connected st n tf sid Hc).
  split; [apply Quiet_analysis|]. by apply Reads_analysis.
Qed.

(** X9: once [self.connection] is set, to a session that is open or to one
    that was closed, [analyze_schema] never connects: it keeps the
    connection, opens and closes no session, writes no file, and all it
    does is print and execute statements.  After [disconnect], which
    leaves [self.connection] set, it therefore works on the closed
    session. *)
Theorem analyze_schema_keeps_a_set_connection st n tf sid :
  connection st = Some sid →
  let r := analyze_schema wh self n tf st in
  connection r.2 = Some sid ∧ sessions r.2 = sessions st ∧ files r.2 = files st ∧
  (∃ evs, trace r.2 = trace st ++ evs ∧ Forall (λ e, reads e = true) evs) ∧
  connection (disconnect r.2).2 = Some sid.
Proof.
  intros Hc r. subst r.
  destruct (analyze_schema_connected_reads st n tf sid Hc)
    as [(Hc' & Hs & Hf & _) Hev].
  rewrite Hc' , Hc. repeat split; [done..|].
  rewrite disconnect_eq, Hc', Hc. simpl. congruence.
Qed.

(** X10: in whatever state it is called, [analyze_schema] writes no file and
    closes no session: the files are left as they were, and a session it
    opened is left open for the caller to close. *)
Theorem analyze_schema_never_closes_or_writes st n tf :
  let r := analyze_schema wh self n tf st in
  files r.2 = files st ∧
  ∃ evs, trace r.2 = trace st ++ evs ∧
         Forall (λ e, closes_or_writes e = false) evs.
Proof.
  simpl.
  assert (∀ e, reads e = true → closes_or_writes e = false) as Hrw.
  { by intros []. }
  destruct (connection st) as [sid|] eqn:Hc.
  - destruct (analyze_schema_connected_reads st n tf sid Hc)
      as [(_ & _ & Hf & _) (evs & Ht & Hall)].
    split; [done|]. exists evs. split; [done|]. eapply Forall_impl; eauto.
  - rewrite analyze_schema_unconnected by done.
    destruct (wh_login wh self) as [msg|] eqn:Hin.
    + pose proof (connect_refused wh self st msg Hin) as Hr.
      assert ((connect wh self >> analyze_schema wh self n tf) st
              = (Raise (Exn ConnectionError msg), (connect wh self st).2)) as ->.
      { unfold bind. by rewrite Hr. }
      rewrite Hr. simpl.
      split; [done|]. eexists. split; [done|]. by repeat constructor.
    + pose proof (connect_accepted wh self st Hin) as Ha.
      set (st1 := {| connection := _ |}) in Ha.
      assert ((connect wh self >> analyze_schema wh self n tf) st
              = analyze_schema wh self n tf st1) as ->.
      { unfold bind. by rewrite Ha. }
      destruct (analyze_schema_connected_reads st1 n tf _ eq_refl)
        as [(_ & _ & Hf & _) (evs & Ht & Hall)].
      split; [done|]. rewrite Ht. simpl. rewrite <- (assoc_L (++)).
      eexists. split; [done|]. apply Forall_app. split; [by repeat constructor|].
      eapply Forall_impl; eauto.
Qed.

End OnlyReads.

Lemma analyze_schema_keeps_a_set_connection_witness :
  connection disconnected = Some 0%nat ∧
  let r := analyze_schema Demo.sound Demo.cfg 5 None disconnected in
  connection r.2 = Some 0%nat ∧ sessions r.2 = sessions disconnected ∧
  files r.2 = files disconnected ∧
  (∃ evs, trace r.2 = trace disconnected ++ evs ∧ Forall (λ e, reads e = true) evs) ∧
  connection (disconnect r.2).2 = Some 0%nat.
Proof.
  split; [reflexivity|].
  exact (analyze_schema_keeps_a_set_connection Demo.sound Demo.cfg
           disconnected 5 None 0%nat eq_refl).
Defined.

(** ** [main] from start to end *)

Section Main.

Context (wh : Warehouse) (pd : Pandas) (self : Config).


(** X11: [main] never raises: whatever the warehouse answers and whatever
    state it starts in, it ends normally, so that a failure shows on the
    console only.  The one file it can touch is its output file; that file
    is either left as it was or replaced by the export of a frame. *)
Theorem main_always_ends_normally st :
  let r := main wh pd self st in
  r.1 = Ret tt ∧
  (∀ path, path ≠ csv_path → files r.2 !! path = files st !! path) ∧
  (files r.2 = files st ∨
   ∃ df, files r.2 = <[csv_path := BOM +:+ to_csv pd df]> (files st)).
Proof.
  simpl. unfold main.
  destruct (run_facts wh pd self 5 None st) as (Hr & Hf & _).
  split; [done|]. rewrite Hf.
  destruct (run_outcome wh self 5 None) as [df|e].
  - split; [|eauto]. intros path Hne. by rewrite lookup_insert_ne.
  - split; [done|by left].
Qed.


End Main.


(** ** One column's failure and the others *)

Section Isolation.

Context (wh : Warehouse) (self : Config).

(** The failures [fault] differ from those of [wh] on sample statements
    of column [c0] of table [t0] at most. *)
Context (fault : Query → option string) (t0 c0 : string).
Context (Hfault : ∀ q, samples_column t0 c0 q = false → fault q = wh_fault wh q).

Lemma columns_fault_with_faults tables :
  columns_fault (with_faults wh fault) self tables = columns_fault wh self tables.
Proof.
  induction tables as [|t tables IH]; [done|]; simpl.
  by rewrite Hfault, IH.
Qed.

Lemma report_row_with_faults n t c :
  same_row_but t0 c0 (report_row wh self n t c)
    (report_row (with_faults wh fault) self n t c).
Proof.
  split; [done|]. unfold row_key; simpl. intros Hne.
  unfold report_row, sample_values; simpl. rewrite Hfault; [done|].
  simpl. apply bool_decide_eq_false. intros [Ht Hc]. apply Hne. by rewrite Ht, Hc.
Qed.

Lemma report_with_faults n tables :
  Forall2 (same_row_but t0 c0) (report wh self n tables)
    (report (with_faults wh fault) self n tables).
Proof.
  unfold report. induction tables as [|t tables IH]; [constructor|].
  rewrite !bind_cons. apply Forall2_app; [|done].
  unfold table_report.
  change (select_columns (with_faults wh fault) (database self) (schema self) t)
    with (select_columns wh (database self) (schema self) t).
  induction (select_columns wh (database self) (schema self) t) as [|c cols IHc];
    [constructor|].
  rewrite !fmap_cons. constructor; [apply report_row_with_faults|done].
Qed.

(** X5: whether the sample statement of one column fails or not changes
    nothing for the others.  Two runs on open sessions, against warehouses
    that differ in the failures of the sample statements of one column
    only, end alike: both raise the same exception, or both return frames
    with the same columns row by row, equal in every row but the rows of
    that column. *)
Theorem sample_failure_stays_in_its_column sid1 st1 sid2 st2 n tf :
  live sid1 st1 → live sid2 st2 →
  match (analyze_schema wh self n tf st1).1,
        (analyze_schema (with_faults wh fault) self n tf st2).1 with
  | Ret df1, Ret df2 => Forall2 (same_row_but t0 c0) df1 df2
  | Raise e1, Raise e2 => e1 = e2
  | _, _ => False
  end.
Proof.
  intros Hl1 Hl2.
  destruct (analyze_schema_live wh self sid1 n tf st1 Hl1) as [-> _].
  destruct (analyze_schema_live (with_faults wh fault) self sid2 n tf st2 Hl2) as [-> _].
  unfold analysis_outcome, tables_outcome. simpl wh_fault.
  destruct (truthy tf).
  - rewrite columns_fault_with_faults.
    destruct (columns_fault wh self _); [done|apply report_with_faults].
  - rewrite Hfault by done.
    destruct (wh_fault wh (SelectTables _ _)); [done|].
    change (select_tables (with_faults wh fault) (database self) (schema self))
      with (select_tables wh (database self) (schema self)).
    rewrite columns_fault_with_faults.
    destruct (columns_fault wh self _); [done|apply report_with_faults].
Qed.

End Isolation.

Lemma sample_failure_stays_in_its_column_witness :
  (∀ q, samples_column "ORDERS" "NOTE" q = false →
        orders_note_fault q = wh_fault Demo.sound q) ∧
  live 0 Demo.connected ∧ live 0 Demo.connected ∧
  match (analyze_schema Demo.sound Demo.cfg 5 None Demo.connected).1,
        (analyze_schema (with_faults Demo.sound orders_note_fault) Demo.cfg 5 None
           Demo.connected).1 with
  | Ret df1, Ret df2 => Forall2 (same_row_but "ORDERS" "NOTE") df1 df2
  | Raise e1, Raise e2 => e1 = e2
  | _, _ => False
  end.
Proof.
  assert (∀ q, samples_column "ORDERS" "NOTE" q = false →
               orders_note_fault q = wh_fault Demo.sound q) as Hf.
  { intros q Hq. unfold orders_note_fault. rewrite Hq. reflexivity. }
  assert (live 0 Demo.connected) as Hl by (split; reflexivity).
  split; [exact Hf|]. split; [exact Hl|]. split; [exact Hl|].
  exact (sample_failure_stays_in_its_column Demo.sound Demo.cfg orders_note_fault
           "ORDERS" "NOTE" Hf 0 Demo.connected 0 Demo.connected 5 None Hl Hl).
Defined.

(** The two reports of schema [PUBLIC], with and without the failure on
    [NOTE]: they differ in that one field. *)
Example note_failure_changes_one_field :
  (analyze_schema Demo.sound Demo.cfg 5 None Demo.connected).1
  = Ret Demo.public_report ∧
  (analyze_schema (with_faults Demo.sound orders_note_fault) Demo.cfg 5 None
     Demo.connected).1
  = Ret (<[2%nat := Demo.row "ORDERS" "NOTE" "VARIANT" "YES"
                      "エラー: SQL compilation error"]> Demo.public_report).
Proof. split; reflexivity. Qed.

(** ** The content of a row *)

Section RowContent.

Context (wh : Warehouse) (self : Config).

Lemma slice_to_nonpositive {A} (n : Z) (x : A) : (n ≤ 0)%Z → Py.slice_to n [x] = [].
Proof.
  intros Hn. unfold Py.slice_to. destruct (decide (0 ≤ n)%Z).
  - by replace n with 0%Z by lia.
  - simpl length. by replace (Z.to_nat (Z.of_nat 1 + n)) with 0%nat by lia.
Qed.

(** X6: with a sample size of 0 or less, the row of a column whose sample
    statement fails has an empty sample field, in every returned frame:
    the slice that bounds the samples takes the text of the failure
    away. *)
Theorem nonpositive_sample_size_hides_failures n t c msg st tf df r :
  (n ≤ 0)%Z →
  wh_fault wh (SelectSample (database self) (schema self) t c n) = Some msg →
  (analyze_schema wh self n tf st).1 = Ret df →
  r ∈ df → row_table r = t → row_column r = c →
  row_samples r = EmptyString.
Proof.
  intros Hn Hf ->%analyze_schema_returns_report
    (t' & c' & _ & _ & ->)%elem_of_report; simpl. intros -> <-.
  unfold sample_text, sample_values. rewrite Hf.
  by rewrite slice_to_nonpositive.
Qed.

(** X1: whenever [analyze_schema] returns a frame, its rows stand one to one,
    in order, for the columns returned for the tables gone through, and
    each row holds the table, and of the column the name, the type and the
    nullability as returned, and for its samples the texts [str] gives for
    the first [sample_size] values [get_sample_values] returns on an open
    session, joined by a comma and a blank.  The default, the length, the
    precision and the scale of the column are fetched, and not
    reported. *)
Theorem report_rows_hold_the_descriptor st n tf df :
  (analyze_schema wh self n tf st).1 = Ret df →
  Forall2
    (λ r tc,
       row_table r = tc.1 ∧
       row_column r = COLUMN_NAME tc.2 ∧
       row_type r = DATA_TYPE tc.2 ∧
       row_nullable r = IS_NULLABLE tc.2 ∧
       row_samples r
       = Py.join ", "
           (Py.str <$> Py.slice_to n (sample_values wh self tc.1 (COLUMN_NAME tc.2) n)))
    df
    (table_set wh self tf ≫=
       (λ t, (λ c, (t, c)) <$> select_columns wh (database self) (schema self) t)).
Proof.
  intros ->%analyze_schema_returns_report. unfold report.
  induction (table_set wh self tf) as [|t tables IH]; [constructor|].
  rewrite !bind_cons. apply Forall2_app; [|done].
  unfold table_report.
  induction (select_columns wh (database self) (schema self) t) as [|c cols IHc];
    [constructor|].
  rewrite !fmap_cons. by constructor.
Qed.

(** X4: on an open session, with no table list given, a failure of the
    statement that lists the tables ends [analyze_schema] with that
    failure, before any other statement is executed. *)
Theorem failing_table_list_ends_the_analysis sid st n tf msg :
  live sid st → truthy tf = false →
  wh_fault wh (SelectTables (database self) (schema self)) = Some msg →
  let r := analyze_schema wh self n tf st in
  r.1 = Raise (Exn QueryError msg) ∧
  ∃ evs, trace r.2 = trace st ++ evs ∧
         executed evs = [SelectTables (database self) (schema self)].
Proof.
  intros Hl Htf Hf r. subst r.
  destruct (Runs_analyze_schema wh self sid n tf st Hl) as (Hr & _ & evs & Ht & He).
  unfold analysis_outcome, analysis_statements in *. rewrite Htf, Hf in *.
  split; [done|]. by exists evs.
Qed.

End RowContent.

Lemma nonpositive_sample_size_hides_failures_witness :
  (-1 ≤ 0)%Z ∧
  wh_fault (Demo.wh None Demo.note_fault)
    (SelectSample (database Demo.cfg) (schema Demo.cfg) "ORDERS" "NOTE" (-1))
  = Some "SQL compilation error" ∧
  (analyze_schema (Demo.wh None Demo.note_fault) Demo.cfg (-1) (Some ["ORDERS"])
     Demo.connected).1
  = Ret [Demo.row "ORDERS" "ORDER_ID" "NUMBER" "NO" EmptyString;
         Demo.row "ORDERS" "AMOUNT" "NUMBER" "YES" EmptyString;
         Demo.row "ORDERS" "NOTE" "VARIANT" "YES" EmptyString] ∧
  Demo.row "ORDERS" "NOTE" "VARIANT" "YES" EmptyString
  ∈ [Demo.row "ORDERS" "ORDER_ID" "NUMBER" "NO" EmptyString;
     Demo.row "ORDERS" "AMOUNT" "NUMBER" "YES" EmptyString;
     Demo.row "ORDERS" "NOTE" "VARIANT" "YES" EmptyString] ∧
  row_table (Demo.row "ORDERS" "NOTE" "VARIANT" "YES" EmptyString) = "ORDERS" ∧
  row_column (Demo.row "ORDERS" "NOTE" "VARIANT" "YES" EmptyString) = "NOTE" ∧
  row_samples (Demo.row "ORDERS" "NOTE" "VARIANT" "YES" EmptyString) = EmptyString.
Proof.
  assert (-1 ≤ 0)%Z as Hn by lia.
  assert (Demo.row "ORDERS" "NOTE" "VARIANT" "YES" EmptyString
          ∈ [Demo.row "ORDERS" "ORDER_ID" "NUMBER" "NO" EmptyString;
             Demo.row "ORDERS" "AMOUNT" "NUMBER" "YES" EmptyString;
             Demo.row "ORDERS" "NOTE" "VARIANT" "YES" EmptyString]) as Hin.
  { apply list_elem_of_lookup. by exists 2%nat. }
  split; [exact Hn|]. split; [reflexivity|]. split; [reflexivity|].
  split; [exact Hin|]. split; [reflexivity|]. split; [reflexivity|].
  exact (nonpositive_sample_size_hides_failures (Demo.wh None Demo.note_fault) Demo.cfg
           (-1) "ORDERS" "NOTE" "SQL compilation error" Demo.connected (Some ["ORDERS"])
           _ _ Hn eq_refl eq_refl Hin eq_refl eq_refl).
Defined.

Lemma report_rows_hold_the_descriptor_witness :
  (analyze_schema Demo.sound Demo.cfg 5 None (initial ∅)).1 = Ret Demo.public_report ∧
  Forall2
    (λ r tc,
       row_table r = tc.1 ∧
       row_column r = COLUMN_NAME tc.2 ∧
       row_type r = DATA_TYPE tc.2 ∧
       row_nullable r = IS_NULLABLE tc.2 ∧
       row_samples r
       = Py.join ", "
           (Py.str <$> Py.slice_to 5
                         (sample_values Demo.sound Demo.cfg tc.1 (COLUMN_NAME tc.2) 5)))
    Demo.public_report
    (table_set Demo.sound Demo.cfg None ≫=
       (λ t, (λ c, (t, c))
               <$> select_columns Demo.sound (database Demo.cfg) (schema Demo.cfg) t)).
Proof.
  assert ((analyze_schema Demo.sound Demo.cfg 5 None (initial ∅)).1
          = Ret Demo.public_report) as Hrun by reflexivity.
  split; [exact Hrun|].
  exact (report_rows_hold_the_descriptor Demo.sound Demo.cfg (initial ∅) 5 None
           Demo.public_report Hrun).
Defined.

Lemma failing_table_list_ends_the_analysis_witness :
  live 0 Demo.connected ∧ truthy (@None (list string)) = false ∧
  wh_fault (Demo.wh None (λ q, if is_catalog q then Some "Statement timed out" else None))
    (SelectTables (database Demo.cfg) (schema Demo.cfg))
  = Some "Statement timed out" ∧
  let r := analyze_schema
             (Demo.wh None (λ q, if is_catalog q then Some "Statement timed out" else None))
             Demo.cfg 5 None Demo.connected in
  r.1 = Raise (Exn QueryError "Statement timed out") ∧
  ∃ evs, trace r.2 = trace Demo.connected ++ evs ∧
         executed evs = [SelectTables (database Demo.cfg) (schema Demo.cfg)].
Proof.
  assert (live 0 Demo.connected) as Hl by (split; reflexivity).
  split; [exact Hl|]. split; [reflexivity|]. split; [reflexivity|].
  exact (failing_table_list_ends_the_analysis
           (Demo.wh None (λ q, if is_catalog q then Some "Statement timed out" else None))
           Demo.cfg 0 Demo.connected 5 None "Statement timed out" Hl eq_refl eq_refl).
Defined.

(** The example of one table [USERS] with columns [ID] and [EMAIL] and a
    sample size of 2. *)
Example users_report :
  (analyze_schema Demo.sound Demo.cfg 2 (Some ["USERS"]) Demo.connected).1
  = Ret [Demo.row "USERS" "ID" "NUMBER" "NO" "1, 2";
         Demo.row "USERS" "EMAIL" "VARCHAR" "YES" "a@x.com"].
Proof. reflexivity. Qed.
